(** * The legacy CMake driver (src/legacy-driver.ts)

    A shallow embedding of [LegacyCMakeDriver] and proofs about its
    configure / reload protocol.

    The driver is asynchronous TypeScript running on one cooperative
    thread.  Every method is embedded as a computation in a state and
    exception monad over a machine state made of
    - the private fields of the driver object,
    - the store of JavaScript arrays (arrays are passed by reference),
    - the disk, and
    - a trace: the calls made to the collaborators, in order, and, for each
      [await], the driver fields a reader could observe while the method
      was suspended there.

    A method is run from its call to its completion; other tasks that the
    scheduler could interleave at the suspension points are not run, they
    are only given something to observe (the [EvSuspend] entries). *)

From Stdlib Require Import ZArith String List.
From stdpp Require Import base option list gmap strings.

Local Open Scope Z_scope.
Local Open Scope string_scope.
Local Open Scope list_scope.

(** ** Values *)

(** A thrown JavaScript value; only its message matters here. *)
Definition Error := string.

(** Completion of a computation: a value, or a thrown error. *)
Inductive Outcome (A : Type) : Type :=
| Returned (a : A)
| Thrown (e : Error).
Arguments Returned {A} a.
Arguments Thrown {A} e.

(** A settled promise.  A promise stored in a field is represented by the
    way it settles; it is computed from the disk as it is when the load is
    started. *)
Inductive Promise (A : Type) : Type :=
| Resolved (a : A)
| Rejected (e : Error).
Arguments Resolved {A} a.
Arguments Rejected {A} e.

(** [proc.ExecutionResult]: [retc] is [number | null]. *)
Record ExecutionResult : Type := mkExecutionResult {
  retc : option Z;
  stdout : string;
  stderr : string
}.

(** Modelled from the spec: the entries of a Cache Snapshot (./cache is
    absent from src/): a key and a value tagged by a declared type. *)
Inductive EntryType : Type := BOOL | FILEPATH | PATH | STRING | INTERNAL | STATIC.

Record Entry : Type := mkEntry {
  key : string;
  type : EntryType;
  value : string
}.

(** Modelled from the spec: a Cache Snapshot, an immutable mapping from
    entry key to entry. *)
Record CMakeCache : Type := mkCMakeCache {
  entries : gmap string Entry
}.

(** [cache.get(key)]: the entry or [null]. *)
Definition CMakeCache_get (c : CMakeCache) (k : string) : option Entry :=
  entries c !! k.

(** [entry.as<string>()] *)
Definition as_string (e : Entry) : string := value e.

(** Modelled from the spec: the record of a Compilation Database (./api is
    absent from src/): working directory and command of one source file. *)
Record CompilationInfo : Type := mkCompilationInfo {
  file : string;
  directory : string;
  command : string
}.

(** Modelled from the spec: a Compilation Database (./compdb is absent from
    src/), an immutable mapping from normalized source-file path to its
    record. *)
Record CompilationDatabase : Type := mkCompilationDatabase {
  info_by_filepath : gmap string CompilationInfo
}.

(** [vscode.Uri] *)
Record Uri : Type := mkUri { fsPath : string }.

(** The private fields of a [LegacyCMakeDriver], and the project name that
    [doSetProjectName] of the base class stores. *)
Record LegacyCMakeDriver : Type := mkDriver {
  _needsReconfigure : bool;
  _compilationDatabase : Promise (option CompilationDatabase);
  _cmakeCache : option CMakeCache;
  projectName : option string
}.

(** The fields of a driver right after construction (lines 31, 43, 118). *)
Definition new_LegacyCMakeDriver : LegacyCMakeDriver :=
  {| _needsReconfigure := true;
     _compilationDatabase := Resolved None;
     _cmakeCache := None;
     projectName := None |}.

(** Reference to a JavaScript array in the store. *)
Definition loc := nat.

(** What the trace records. *)
Inductive Event : Type :=
| EvExec (cmd : string) (args : loc) (argv : list string)
| EvLoadCache (p : string)
| EvLoadCompdb (p : string)
| EvExists (p : string)
| EvUnlink (p : string)
| EvRmdir (p : string)
| EvSetProjectName (v : string)
| EvSuspend (d : LegacyCMakeDriver).

(** ** Collaborators

    Everything the driver imports and src/ does not contain: the promisified
    file system of ./pr, the process runner behind [executeCommand], the two
    loaders, the path helpers, and the configuration the base class
    exposes.  They are parameters of the development. *)
Class Collaborators : Type := {
  FS : Type;
  OutputConsumer : Type;
  (* ./pr *)
  pr_exists : string -> FS -> bool;
  pr_unlink : string -> FS -> FS * Outcome unit;
  pr_rmdir : string -> FS -> FS * Outcome unit;
  (* ./proc, through executeCommand of the base class *)
  proc_execute : string -> list string -> option OutputConsumer -> FS -> FS * Outcome ExecutionResult;
  (* ./cache and ./compdb read the disk and leave it as it is *)
  cache_load : string -> FS -> Outcome CMakeCache;
  compdb_load : string -> FS -> Outcome (option CompilationDatabase);
  (* ./util, path, vscode.Uri *)
  normalizePath : string -> string;
  path_join : string -> string -> string;
  Uri_file : string -> Uri;
  (* ./config and the getters of the base class *)
  cmakePath : string;
  sourceDir : string;
  binaryDir : string;
  cache_file_name : string
}.

(** What the file system is relied on for: a deletion that succeeds leaves
    nothing at the path, and a deletion creates nothing. *)
Class FsLaws (C : Collaborators) : Prop := {
  unlink_removes : forall p d d',
    pr_unlink p d = (d', Returned tt) -> pr_exists p d' = false;
  rmdir_removes : forall p d d',
    pr_rmdir p d = (d', Returned tt) -> pr_exists p d' = false;
  rmdir_creates_nothing : forall p q d,
    pr_exists q d = false -> pr_exists q (fst (pr_rmdir p d)) = false
}.

Section Driver.

Context {C : Collaborators}.

(** ** Machine state and the monad *)

Record St : Type := mkSt {
  driver : LegacyCMakeDriver;
  heap : list (list string);
  disk : FS;
  trace : list Event
}.

Definition M (A : Type) : Type := St -> St * Outcome A.

#[local] Instance M_ret : MRet M := fun A a st => (st, Returned a).

#[local] Instance M_bind : MBind M := fun A B f m st =>
  match m st with
  | (st', Returned a) => f a st'
  | (st', Thrown e) => (st', Thrown e)
  end.

Definition throw {A : Type} (e : Error) : M A := fun st => (st, Thrown e).

Definition with_driver (d : LegacyCMakeDriver) (st : St) : St :=
  {| driver := d; heap := heap st; disk := disk st; trace := trace st |}.

Definition with_heap (h : list (list string)) (st : St) : St :=
  {| driver := driver st; heap := h; disk := disk st; trace := trace st |}.

Definition with_disk (f : FS) (st : St) : St :=
  {| driver := driver st; heap := heap st; disk := f; trace := trace st |}.

Definition emit (ev : Event) (st : St) : St :=
  {| driver := driver st; heap := heap st; disk := disk st;
     trace := trace st ++ [ev] |}.

(** [await m]: [m] runs to completion, and the caller is resumed after a
    suspension at which the driver is observable. *)
Definition await {A : Type} (m : M A) : M A := fun st =>
  let '(st', r) := m st in (emit (EvSuspend (driver st')) st', r).

(** How the promise of an async function settles, from its completion. *)
Definition settled {A : Type} (r : Outcome A) : Promise A :=
  match r with
  | Returned a => Resolved a
  | Thrown e => Rejected e
  end.

(** A call of an async function that is not awaited: the promise it
    returns. *)
Definition promise_of {A : Type} (m : M A) : M (Promise A) := fun st =>
  let '(st', r) := m st in (st', Returned (settled r)).

(** The settlement of a promise, for [await p]. *)
Definition settle {A : Type} (p : Promise A) : M A :=
  match p with
  | Resolved a => mret a
  | Rejected e => throw e
  end.

(** ** Primitive operations *)

Definition get_driver : M LegacyCMakeDriver := fun st => (st, Returned (driver st)).

(** [this._needsReconfigure = b] *)
Definition set_needsReconfigure (b : bool) : M unit := fun st =>
  (with_driver {| _needsReconfigure := b;
                  _compilationDatabase := _compilationDatabase (driver st);
                  _cmakeCache := _cmakeCache (driver st);
                  projectName := projectName (driver st) |} st, Returned tt).

(** [this._cmakeCache = c] *)
Definition set_cmakeCache (c : option CMakeCache) : M unit := fun st =>
  (with_driver {| _needsReconfigure := _needsReconfigure (driver st);
                  _compilationDatabase := _compilationDatabase (driver st);
                  _cmakeCache := c;
                  projectName := projectName (driver st) |} st, Returned tt).

(** [this._compilationDatabase = p] *)
Definition set_compilationDatabase (p : Promise (option CompilationDatabase)) : M unit :=
  fun st =>
  (with_driver {| _needsReconfigure := _needsReconfigure (driver st);
                  _compilationDatabase := p;
                  _cmakeCache := _cmakeCache (driver st);
                  projectName := projectName (driver st) |} st, Returned tt).

(** Modelled from the spec: [doSetProjectName] of the base class (./driver
    is absent from src/), the single designated setter of the project
    name. *)
Definition doSetProjectName (v : string) : M unit := fun st =>
  (emit (EvSetProjectName v)
     (with_driver {| _needsReconfigure := _needsReconfigure (driver st);
                     _compilationDatabase := _compilationDatabase (driver st);
                     _cmakeCache := _cmakeCache (driver st);
                     projectName := Some v |} st), Returned tt).

(** Array literal [[x1, ..., xn]]: a new array in the store. *)
Definition Array_literal (l : list string) : M loc := fun st =>
  (with_heap (heap st ++ [l]) st, Returned (length (heap st))).

(** [Array.from(a)]: a new array with the elements of [a]; a reference to
    no array is not iterable. *)
Definition Array_from (a : loc) : M loc := fun st =>
  match heap st !! a with
  | Some l => Array_literal l st
  | None => (st, Thrown "TypeError: object is not iterable")
  end.

(** [a.push(x)]: the array [a] itself grows. *)
Definition Array_push (a : loc) (x : string) : M unit := fun st =>
  match heap st !! a with
  | Some l => (with_heap (<[a := l ++ [x]]> (heap st)) st, Returned tt)
  | None => (st, Thrown "TypeError: push is not a function")
  end.

(** [fs.exists(p)] never rejects. *)
Definition fs_exists (p : string) : M bool := fun st =>
  (emit (EvExists p) st, Returned (pr_exists p (disk st))).

(** [fs.unlink(p)] *)
Definition fs_unlink (p : string) : M unit := fun st =>
  let '(d', r) := pr_unlink p (disk st) in (emit (EvUnlink p) (with_disk d' st), r).

(** [fs.rmdir(p)]: removes the whole tree. *)
Definition fs_rmdir (p : string) : M unit := fun st =>
  let '(d', r) := pr_rmdir p (disk st) in (emit (EvRmdir p) (with_disk d' st), r).

(** [this.executeCommand(cmd, args, consumer).result]: the process runner
    is handed the array [args] and reads the argument list from it. *)
Definition executeCommand (cmd : string) (args : loc) (consumer : option OutputConsumer)
  : M ExecutionResult := fun st =>
  match heap st !! args with
  | Some argv =>
      let '(d', r) := proc_execute cmd argv consumer (disk st) in
      (emit (EvExec cmd args argv) (with_disk d' st), r)
  | None => (st, Thrown "TypeError: args is not iterable")
  end.

(** [CMakeCache.fromPath(p)] *)
Definition CMakeCache_fromPath (p : string) : M CMakeCache := fun st =>
  (emit (EvLoadCache p) st, cache_load p (disk st)).

(** [CompilationDatabase.fromFilePath(p)] *)
Definition CompilationDatabase_fromFilePath (p : string) : M (option CompilationDatabase) :=
  fun st => (emit (EvLoadCompdb p) st, compdb_load p (disk st)).

(** Modelled from the spec: [getCompilationInfoForUri] of ./compdb (absent
    from src/): normalize the path to the key form of the database and
    return the matching record, or null if there is none. *)
Definition getCompilationInfoForUri (db : CompilationDatabase) (uri : Uri)
  : option CompilationInfo :=
  info_by_filepath db !! normalizePath (fsPath uri).

(** Modelled from the spec: the [cachePath] getter of the base class
    (./driver is absent from src/): the cache file directly inside the
    binary directory. *)
Definition cachePath : string := path_join binaryDir cache_file_name.

(** ** The methods of [LegacyCMakeDriver] *)

(** [get needsReconfigure()] *)
Definition needsReconfigure (st : St) : bool := _needsReconfigure (driver st).

(** [get cmakeCache()] *)
Definition cmakeCache (st : St) : option CMakeCache := _cmakeCache (driver st).

(** Lines 34-41. *)
Definition doSetKit (need_clean : bool) (cb : M unit) : M unit :=
  set_needsReconfigure true;;
  (if need_clean then await (fs_rmdir binaryDir) else mret tt);;
  await cb.

(** Lines 44-50. *)
Definition compilationInfoForFile (filepath : string) : M (option CompilationInfo) :=
  this ← get_driver;
  db ← await (settle (_compilationDatabase this));
  match db with
  | None => mret None
  | Some db => mret (getCompilationInfoForUri db (Uri_file filepath))
  end.

(** Lines 120-129. *)
Definition _reloadPostConfigure : M unit :=
  new_cache ← await (CMakeCache_fromPath cachePath);
  set_cmakeCache (Some new_cache);;
  let project := CMakeCache_get new_cache "CMAKE_PROJECT_NAME" in
  match project with
  | Some project => doSetProjectName (as_string project)
  | None => mret tt
  end;;
  p ← promise_of (CompilationDatabase_fromFilePath (path_join binaryDir "compile_commands.json"));
  set_compilationDatabase p.

(** [res.retc == 0]: loose equality, false for [null]. *)
Definition retc_is_zero (res : ExecutionResult) : bool :=
  match retc res with
  | Some n => Z.eqb n 0
  | None => false
  end.

(** Lines 57-72.  The calls to the logger have no effect on the driver and
    are left out, here and in the other methods. *)
Definition doConfigure (args_ : loc) (outputConsumer : option OutputConsumer) : M Z :=
  args ← Array_from args_;
  Array_push args ("-H" +:+ normalizePath sourceDir);;
  let bindir := normalizePath binaryDir in
  Array_push args ("-B" +:+ bindir);;
  res ← await (executeCommand cmakePath args outputConsumer);
  (if retc_is_zero res then set_needsReconfigure false else mret tt);;
  await _reloadPostConfigure;;
  mret (match retc res with None => -1 | Some n => n end).

(** Lines 74-87.  [configure] is the method of the base class. *)
Definition cleanConfigure (configure : loc -> option OutputConsumer -> M Z)
    (consumer : option OutputConsumer) : M Z :=
  let build_dir := binaryDir in
  let cache := cachePath in
  let cmake_files := path_join build_dir "CMakeFiles" in
  b ← await (fs_exists cache);
  (if b : bool then await (fs_unlink cache) else mret tt);;
  b ← await (fs_exists cmake_files);
  (if b : bool then await (fs_rmdir cmake_files) else mret tt);;
  args ← Array_literal [];
  configure args consumer.

(** Modelled from the spec: [configure] of the base class (./driver is
    absent from src/); the spec's configure is what [doConfigure] does. *)
Definition configure : loc -> option OutputConsumer -> M Z := doConfigure.

(** Lines 89-92. *)
Definition doPostBuild : M bool :=
  await _reloadPostConfigure;;
  mret true.

(** Lines 139-145. *)
Definition generatorName (st : St) : option string :=
  match cmakeCache st with
  | None => None
  | Some c =>
      let gen := CMakeCache_get c "CMAKE_GENERATOR" in
      match gen with
      | Some gen => Some (as_string gen)
      | None => None
      end
  end.

(** [cache.allEntries] of ./cache (absent from src/): the entries of the
    mapping, as an array. *)
Definition CMakeCache_allEntries (c : CMakeCache) : list Entry :=
  snd <$> map_to_list (entries c).

(** [util.reduce(iter, init, mapper)] of ./util (absent from src/): the
    left fold of [mapper] over [iter] from [init]. *)
Definition util_reduce {In Out : Type} (iter : list In) (init : Out)
    (mapper : Out -> In -> Out) : Out :=
  fold_left mapper iter init.

(** Lines 131-137: a new [Map] from each entry's own key to the entry. *)
Definition cmakeCacheEntries (st : St) : gmap string Entry :=
  let ret : gmap string Entry := ∅ in
  match cmakeCache st with
  | Some c =>
      util_reduce (CMakeCache_allEntries c) ret (fun acc entry => <[key entry := entry]> acc)
  | None => ret
  end.

(** ** The cache watcher

    [vscode.FileSystemWatcher], as far as the driver uses it: the
    listeners registered with [onDidChange] and whether [dispose] was
    called.  The one closure the driver registers (lines 98-101) is
    named, and [call_listener] is its body. *)
Inductive Listener : Type := ReloadOnChange.

Record FileSystemWatcher : Type := mkWatcher {
  watched : string;
  listeners : list Listener;
  disposed : bool
}.

(** The driver with its watcher (line 115) and the error sink of ./rollbar. *)
Record Host : Type := mkHost {
  machine : St;
  _cacheWatcher : FileSystemWatcher;
  rollbar : list (string * Error)
}.

(** [vscode.workspace.createFileSystemWatcher(this.cachePath)] *)
Definition createFileSystemWatcher (p : string) : FileSystemWatcher :=
  {| watched := p; listeners := []; disposed := false |}.

(** A driver right after construction, on the given disk. *)
Definition new_Host (files : FS) : Host :=
  {| machine := {| driver := new_LegacyCMakeDriver; heap := []; disk := files; trace := [] |};
     _cacheWatcher := createFileSystemWatcher cachePath;
     rollbar := [] |}.

Definition W (A : Type) : Type := Host -> Host * Outcome A.

#[local] Instance W_ret : MRet W := fun A a h => (h, Returned a).

#[local] Instance W_bind : MBind W := fun A B f m h =>
  match m h with
  | (h', Returned a) => f a h'
  | (h', Thrown e) => (h', Thrown e)
  end.

(** A method of the driver, run on the driver of the host. *)
Definition on_machine {A : Type} (m : M A) : W A := fun h =>
  let '(st', r) := m (machine h) in
  ({| machine := st'; _cacheWatcher := _cacheWatcher h; rollbar := rollbar h |}, r).

(** [this._cacheWatcher.onDidChange(l)] *)
Definition onDidChange (l : Listener) : W unit := fun h =>
  ({| machine := machine h;
      _cacheWatcher := {| watched := watched (_cacheWatcher h);
                          listeners := listeners (_cacheWatcher h) ++ [l];
                          disposed := disposed (_cacheWatcher h) |};
      rollbar := rollbar h |}, Returned tt).

(** [this._cacheWatcher.dispose()] *)
Definition dispose : W unit := fun h =>
  ({| machine := machine h;
      _cacheWatcher := {| watched := watched (_cacheWatcher h);
                          listeners := listeners (_cacheWatcher h);
                          disposed := true |};
      rollbar := rollbar h |}, Returned tt).

(** Modelled from the spec: [rollbar.invokeAsync] of ./rollbar (absent from
    src/): the function is started, and an error of it is not thrown to
    the caller but routed to the process-wide error sink. *)
Definition rollbar_invokeAsync {A : Type} (what : string) (func : W A) : W unit := fun h =>
  match func h with
  | (h', Returned _) => (h', Returned tt)
  | (h', Thrown e) =>
      ({| machine := machine h'; _cacheWatcher := _cacheWatcher h';
          rollbar := rollbar h' ++ [(what, e)] |}, Returned tt)
  end.

(** The closure of lines 98-101. *)
Definition call_listener (l : Listener) : W unit :=
  match l with
  | ReloadOnChange =>
      rollbar_invokeAsync "Reloading CMake Cache" (on_machine _reloadPostConfigure)
  end.

(** Lines 94-102. *)
Definition doInit : W unit :=
  b ← on_machine (await (fs_exists cachePath));
  (if b : bool then on_machine (await _reloadPostConfigure) else mret tt);;
  onDidChange ReloadOnChange.

(** Lines 53-55. *)
Definition asyncDispose : W unit :=
  dispose.

(** ** Callers

    What the owner of a driver can do with it between construction and
    disposal: change the kit with a callback that works on the disk,
    configure, report a finished build, look up a file, and, through the
    watcher, deliver a change of the cache file.  An error of a call is
    the caller's to handle; the driver is used again afterwards. *)
Inductive Call : Type :=
| CallSetKit (need_clean : bool) (cb : FS -> FS * Outcome unit)
| CallConfigure (args_ : loc) (outputConsumer : option OutputConsumer)
| CallPostBuild
| CallLookup (filepath : string)
| CallCacheChanged.

(** A kit-application callback that works on the disk. *)
Definition disk_callback (cb : FS -> FS * Outcome unit) : M unit := fun st =>
  let '(d', r) := cb (disk st) in (with_disk d' st, r).

Definition run_call (c : Call) (h : Host) : Host :=
  match c with
  | CallSetKit need_clean cb => fst (on_machine (doSetKit need_clean (disk_callback cb)) h)
  | CallConfigure args_ outputConsumer => fst (on_machine (doConfigure args_ outputConsumer) h)
  | CallPostBuild => fst (on_machine doPostBuild h)
  | CallLookup filepath => fst (on_machine (compilationInfoForFile filepath) h)
  | CallCacheChanged => fst (call_listener ReloadOnChange h)
  end.

Definition run_calls (cs : list Call) (h : Host) : Host :=
  fold_left (fun h c => run_call c h) cs h.

End Driver.

Arguments St C : clear implicits.
Arguments M C A : clear implicits.
Arguments Host C : clear implicits.
Arguments W C A : clear implicits.

(** ** The arguments [doConfigure] generates *)

(** The two arguments pushed at lines 60 and 62, in that order. *)
Definition generated_args {C : Collaborators} : list string :=
  ["-H" +:+ normalizePath sourceDir; "-B" +:+ normalizePath binaryDir].

(** ** An in-memory instance of the collaborators

    A disk is a list of files (path, contents).  The build tool of the
    instance exits with [code] after writing [writes]; the paths in [locked]
    cannot be deleted.  A cache file holds the project name, and the
    contents [corrupt] do not parse; a compile-commands file holds the
    path of the one source file it describes. *)

Definition mem_disk : Type := list (string * string).

Definition mem_read (p : string) (d : mem_disk) : option string :=
  snd <$> List.find (fun e => String.eqb (fst e) p) d.

Definition mem_exists (p : string) (d : mem_disk) : bool :=
  existsb (fun e => String.eqb (fst e) p) d.

Definition mem_is_locked (locked : list string) (p : string) : bool :=
  existsb (String.eqb p) locked.

Definition mem_unlink (locked : list string) (p : string) (d : mem_disk)
  : mem_disk * Outcome unit :=
  if mem_is_locked locked p then (d, Thrown "EPERM: operation not permitted")
  else (List.filter (fun e => negb (String.eqb (fst e) p)) d, Returned tt).

Definition mem_under (p q : string) : bool :=
  String.eqb q p || String.prefix (p +:+ "/") q.

Definition mem_rmdir (locked : list string) (p : string) (d : mem_disk)
  : mem_disk * Outcome unit :=
  if existsb (mem_under p) locked then (d, Thrown "EPERM: operation not permitted")
  else (List.filter (fun e => negb (mem_under p (fst e))) d, Returned tt).

Definition mem_execute (code : option Z) (writes : mem_disk)
    (cmd : string) (argv : list string) (consumer : option unit) (d : mem_disk)
  : mem_disk * Outcome ExecutionResult :=
  (writes ++ d, Returned {| retc := code; stdout := ""; stderr := "" |}).

Definition mem_cache_load (p : string) (d : mem_disk) : Outcome CMakeCache :=
  match mem_read p d with
  | None => Returned {| entries := ∅ |}
  | Some contents =>
      if String.eqb contents "corrupt" then Thrown "cannot parse the cache"
      else Returned {| entries :=
             {[ "CMAKE_PROJECT_NAME" :=
                  {| key := "CMAKE_PROJECT_NAME"; type := STATIC; value := contents |} ]} |}
  end.

Definition mem_compdb_load (p : string) (d : mem_disk) : Outcome (option CompilationDatabase) :=
  match mem_read p d with
  | None => Returned None
  | Some src =>
      Returned (Some {| info_by_filepath :=
        {[ src := {| file := src; directory := "/build"; command := "cc -c " +:+ src |} ]} |})
  end.

Definition mem_collaborators (code : option Z) (writes : mem_disk) (locked : list string)
  : Collaborators :=
  {| FS := mem_disk;
     OutputConsumer := unit;
     pr_exists := mem_exists;
     pr_unlink := mem_unlink locked;
     pr_rmdir := mem_rmdir locked;
     proc_execute := mem_execute code writes;
     cache_load := mem_cache_load;
     compdb_load := mem_compdb_load;
     normalizePath := fun p => p;
     path_join := fun a b => a +:+ "/" +:+ b;
     Uri_file := mkUri;
     cmakePath := "cmake";
     sourceDir := "/src";
     binaryDir := "/build";
     cache_file_name := "CMakeCache.txt" |}.

(** A machine state of the instance: the given driver and disk, and a store
    whose array 0 is [argv]. *)
Definition mem_state (code : option Z) (writes : mem_disk) (locked : list string)
    (d : LegacyCMakeDriver) (files : mem_disk) (argv : list string)
  : St (mem_collaborators code writes locked) :=
  @mkSt (mem_collaborators code writes locked) d [argv] files [].

(** A driver that was configured before. *)
Definition configured_driver : LegacyCMakeDriver :=
  {| _needsReconfigure := false;
     _compilationDatabase := Resolved None;
     _cmakeCache := Some {| entries := ∅ |};
     projectName := None |}.


(** Three build tools: one that fails with exit code 1 and writes nothing,
    one that succeeds and writes a cache file and a compile-commands file,
    and one that exits with code 0 but leaves a cache file that does not
    parse. *)
Definition failing_tool : Collaborators := mem_collaborators (Some 1) [] [].

Definition working_tool : Collaborators :=
  mem_collaborators (Some 0)
    [("/build/CMakeCache.txt", "Foo"); ("/build/compile_commands.json", "/src/a.c")] [].

Definition corrupting_tool : Collaborators :=
  mem_collaborators (Some 0) [("/build/CMakeCache.txt", "corrupt")] [].

(** A configured driver whose next configure fails. *)
Definition reconfigure_fails : St failing_tool :=
  mem_state (Some 1) [] [] configured_driver [("/build/CMakeCache.txt", "Foo")] ["-G"; "Ninja"].

(** A new driver over an empty binary directory. *)
Definition first_configure : St working_tool :=
  mem_state _ _ [] new_LegacyCMakeDriver [] ["-G"; "Ninja"].

Definition first_configure_corrupt : St corrupting_tool :=
  mem_state _ _ [] new_LegacyCMakeDriver [] [].

(** A configured driver over a binary directory left by an earlier build. *)
Definition built_before : St working_tool :=
  mem_state _ _ [] configured_driver
    [("/build/CMakeCache.txt", "Old"); ("/build/CMakeFiles/a.o", "obj"); ("/build", "dir");
     ("/build/CMakeFiles", "dir"); ("/src/a.c", "int main;")] [].

(** The same binary directory, with a cache file that cannot be deleted. *)
Definition locked_tool : Collaborators :=
  mem_collaborators (Some 0) [] ["/build/CMakeCache.txt"].

Definition built_before_locked : St locked_tool :=
  mem_state _ _ _ configured_driver
    [("/build/CMakeCache.txt", "Old"); ("/build/CMakeFiles", "dir")] [].

(** A kit-application callback: it records the kit on the disk. *)
Definition apply_kit : M working_tool unit := fun st =>
  let files : mem_disk := disk st in
  let files' : mem_disk := ("/kit", "gcc") :: files in
  (@with_disk working_tool files' st, Returned tt).

(** A process runner that fails to start the tool. *)
Definition rejecting_tool : Collaborators :=
  {| FS := mem_disk;
     OutputConsumer := unit;
     pr_exists := mem_exists;
     pr_unlink := mem_unlink [];
     pr_rmdir := mem_rmdir [];
     proc_execute := fun _ _ _ d => (d, Thrown "spawn cmake ENOENT");
     cache_load := mem_cache_load;
     compdb_load := mem_compdb_load;
     normalizePath := fun p => p;
     path_join := fun a b => a +:+ "/" +:+ b;
     Uri_file := mkUri;
     cmakePath := "cmake";
     sourceDir := "/src";
     binaryDir := "/build";
     cache_file_name := "CMakeCache.txt" |}.

Definition configure_cannot_start : St rejecting_tool :=
  @mkSt rejecting_tool configured_driver [["-G"; "Ninja"]]
    [("/build/CMakeCache.txt", "Foo")] [].

(** A compile-commands file that exists but cannot be read. *)
Definition unreadable_compdb : Collaborators :=
  {| FS := mem_disk;
     OutputConsumer := unit;
     pr_exists := mem_exists;
     pr_unlink := mem_unlink [];
     pr_rmdir := mem_rmdir [];
     proc_execute := mem_execute (Some 0) [];
     cache_load := mem_cache_load;
     compdb_load := fun p d =>
       match mem_read p d with
       | None => Returned None
       | Some _ => Thrown "EACCES: permission denied"
       end;
     normalizePath := fun p => p;
     path_join := fun a b => a +:+ "/" +:+ b;
     Uri_file := mkUri;
     cmakePath := "cmake";
     sourceDir := "/src";
     binaryDir := "/build";
     cache_file_name := "CMakeCache.txt" |}.

Definition reload_unreadable_compdb : St unreadable_compdb :=
  @mkSt unreadable_compdb new_LegacyCMakeDriver []
    [("/build/CMakeCache.txt", "Foo"); ("/build/compile_commands.json", "/src/a.c")] [].

(** A cache with two entries, each under its own key. *)
Definition two_entry_cache : CMakeCache :=
  {| entries :=
       <["CMAKE_GENERATOR" :=
           {| key := "CMAKE_GENERATOR"; type := INTERNAL; value := "Ninja" |}]>
         {["CMAKE_PROJECT_NAME" :=
             {| key := "CMAKE_PROJECT_NAME"; type := STATIC; value := "Foo" |}]} |}.

Definition with_two_entry_cache : St working_tool :=
  mem_state _ _ []
    {| _needsReconfigure := false;
       _compilationDatabase := Resolved None;
       _cmakeCache := Some two_entry_cache;
       projectName := Some "Foo" |} [] [].

(** New drivers over a binary directory without a cache file, with one
    that does not parse, and with a good one. *)
Definition host_without_cache : Host working_tool :=
  @new_Host working_tool [("/src/a.c", "int main;")].

Definition host_with_corrupt_cache : Host working_tool :=
  @new_Host working_tool [("/build/CMakeCache.txt", "corrupt")].

Definition host_with_cache : Host working_tool :=
  @new_Host working_tool
    [("/build/CMakeCache.txt", "Foo"); ("/build/compile_commands.json", "/src/a.c")].

(** A new driver whose tool always fails, and what its owner does with
    it. *)
Definition failing_host : Host failing_tool :=
  @mkHost failing_tool
    (@mkSt failing_tool new_LegacyCMakeDriver [["-G"; "Ninja"]] [] [])
    (createFileSystemWatcher "/build/CMakeCache.txt") [].

Definition failing_session : list (@Call failing_tool) :=
  [@CallConfigure failing_tool 0%nat None;
   @CallPostBuild failing_tool;
   @CallSetKit failing_tool true (fun d => (("/kit", "gcc") :: d, Returned tt));
   @CallConfigure failing_tool 0%nat None;
   @CallLookup failing_tool "/src/a.c";
   @CallCacheChanged failing_tool].

(** A driver that holds a cache, and a session of its owner. *)
Definition working_host : Host working_tool :=
  @mkHost working_tool with_two_entry_cache
    (createFileSystemWatcher "/build/CMakeCache.txt") [].

Definition working_session : list (@Call working_tool) :=
  [@CallSetKit working_tool true (fun d => (d, Thrown "no such kit"));
   @CallCacheChanged working_tool;
   @CallConfigure working_tool 0%nat None;
   @CallPostBuild working_tool].

(** * Proofs *)

Section Proofs.

Context {C : Collaborators}.

Implicit Types (st : St C) (argv : list string).

(** Case analysis on the membership [H] of an event in a literal list. *)
Ltac event_cases H :=
  apply list_elem_of_In in H; cbn in H;
  repeat (destruct H as [H|H]; [try discriminate H|]);
  try contradiction.

(** ** Running the primitives *)

Lemma heap_alloc_lookup (h : list (list string)) (l : list string) :
  (h ++ [l]) !! length h = Some l.
Proof.
  rewrite lookup_app_r by lia. by rewrite Nat.sub_diag.
Qed.

Lemma heap_alloc_insert (h : list (list string)) (l l' : list string) :
  <[length h := l']> (h ++ [l]) = h ++ [l'].
Proof.
  rewrite insert_app_r_alt by lia. by rewrite Nat.sub_diag.
Qed.

Lemma heap_alloc_old (h : list (list string)) (l : list string) (a : loc) (x : list string) :
  h !! a = Some x -> (h ++ [l]) !! a = Some x /\ a <> length h.
Proof.
  intros Ha. split.
  - by apply lookup_app_l_Some.
  - apply lookup_lt_Some in Ha. lia.
Qed.

Lemma heap_alloc_fresh (h : list (list string)) : h !! length h = None.
Proof. apply lookup_ge_None. lia. Qed.

(** The state in which [cleanConfigure] calls configure: fixed by the
    last conjunct, which the others are then checked against. *)
Ltac reaches_configure st :=
  eexists _, (length (heap st)), _; split_and!; revgoals;
  [ reflexivity
  |
  | cbn; rewrite <- ?app_assoc; reflexivity
  | cbn; apply heap_alloc_lookup
  | apply heap_alloc_fresh
  | reflexivity ];
  let Hin := fresh "Hin" in
  intros ? ? ? Hin; event_cases Hin.

(** ** Running a reload *)

Lemma reload_thrown st e :
  cache_load cachePath (disk st) = Thrown e ->
  _reloadPostConfigure st
  = (emit (EvSuspend (driver st)) (emit (EvLoadCache cachePath) st), Thrown e).
Proof.
  intros Hload.
  unfold _reloadPostConfigure, mbind, M_bind, await, CMakeCache_fromPath.
  by rewrite Hload.
Qed.

Lemma reload_returned st c :
  cache_load cachePath (disk st) = Returned c ->
  exists st',
    _reloadPostConfigure st = (st', Returned tt)
    /\ _cmakeCache (driver st') = Some c
    /\ _compilationDatabase (driver st')
       = settled (compdb_load (path_join binaryDir "compile_commands.json") (disk st))
    /\ _needsReconfigure (driver st') = _needsReconfigure (driver st)
    /\ projectName (driver st')
       = match CMakeCache_get c "CMAKE_PROJECT_NAME" with
         | Some project => Some (as_string project)
         | None => projectName (driver st)
         end
    /\ disk st' = disk st
    /\ heap st' = heap st
    /\ trace st'
       = trace st ++ [EvLoadCache cachePath; EvSuspend (driver st)]
         ++ match CMakeCache_get c "CMAKE_PROJECT_NAME" with
            | Some project => [EvSetProjectName (as_string project)]
            | None => []
            end
         ++ [EvLoadCompdb (path_join binaryDir "compile_commands.json")].
Proof.
  intros Hload.
  unfold _reloadPostConfigure, mbind, M_bind, await, CMakeCache_fromPath.
  rewrite Hload. cbn.
  destruct (CMakeCache_get c "CMAKE_PROJECT_NAME") as [project|]; cbn;
    eexists; (split; [reflexivity|]); cbn; repeat split;
    by rewrite <- ?app_assoc.
Qed.

Lemma reload_keeps_disk st :
  disk (fst (_reloadPostConfigure st)) = disk st.
Proof.
  destruct (cache_load cachePath (disk st)) as [c|e] eqn:Hload.
  - destruct (reload_returned st c Hload) as (st' & -> & H). cbn. tauto.
  - by rewrite (reload_thrown st e Hload).
Qed.

(** What a reload leaves alone, and how its trace starts, whichever way
    it completes. *)
Lemma reload_frame st :
  exists st' r evs,
    _reloadPostConfigure st = (st', r)
    /\ match cache_load cachePath (disk st) with
       | Returned _ => r = Returned tt
       | Thrown e => r = Thrown e
       end
    /\ _needsReconfigure (driver st') = _needsReconfigure (driver st)
    /\ disk st' = disk st
    /\ heap st' = heap st
    /\ trace st' = trace st ++ [EvLoadCache cachePath; EvSuspend (driver st)] ++ evs
    /\ forall cmd a l, EvExec cmd a l ∉ evs.
Proof.
  destruct (cache_load cachePath (disk st)) as [c|e] eqn:Hload.
  - destruct (reload_returned st c Hload)
      as (st' & Hrun & _ & _ & Hflag & _ & Hdisk & Hheap & Htrace).
    exists st', (Returned tt). eexists.
    split_and!; [done|done|done|done|done|exact Htrace|].
    intros cmd a l Hin.
    destruct (CMakeCache_get c "CMAKE_PROJECT_NAME"); event_cases Hin.
  - exists (emit (EvSuspend (driver st)) (emit (EvLoadCache cachePath) st)), (Thrown e), [].
    split_and!; try done.
    + by apply reload_thrown.
    + cbn. by rewrite <- app_assoc.
    + intros cmd a l Hin. event_cases Hin.
Qed.

(** ** The reload protocol *)

(** C3.  One reload reads the cache file and the compile-commands file of
    the same binary directory from the same disk.  While the reload is
    suspended a reader still sees the cache and the compilation database
    of before the call; when the reload returns, both fields hold what
    was loaded; when it throws, both are as before.  No reader sees one
    replaced without the other. *)
Theorem reload_replaces_both_or_neither st :
  let '(st', r) := _reloadPostConfigure st in
  (exists evs,
     trace st' = trace st ++ evs
     /\ forall d, EvSuspend d ∈ evs ->
          _cmakeCache d = _cmakeCache (driver st)
          /\ _compilationDatabase d = _compilationDatabase (driver st))
  /\ match r with
     | Returned _ =>
         exists c,
           cache_load (path_join binaryDir cache_file_name) (disk st) = Returned c
           /\ _cmakeCache (driver st') = Some c
           /\ _compilationDatabase (driver st')
              = settled (compdb_load (path_join binaryDir "compile_commands.json") (disk st))
     | Thrown e =>
         cache_load (path_join binaryDir cache_file_name) (disk st) = Thrown e
         /\ _cmakeCache (driver st') = _cmakeCache (driver st)
         /\ _compilationDatabase (driver st') = _compilationDatabase (driver st)
     end.
Proof.
  fold cachePath.
  destruct (cache_load cachePath (disk st)) as [c|e] eqn:Hload.
  - destruct (reload_returned st c Hload)
      as (st' & -> & Hcache & Hdb & _ & _ & _ & _ & Htrace).
    split; [|by exists c].
    eexists. split; [exact Htrace|].
    intros d Hd.
    destruct (CMakeCache_get c "CMAKE_PROJECT_NAME");
      event_cases Hd; by injection Hd as <-.
  - rewrite (reload_thrown st e Hload). split; [|done].
    exists [EvLoadCache cachePath; EvSuspend (driver st)]. split.
    + cbn. by rewrite <- app_assoc.
    + intros d Hd. event_cases Hd. by injection Hd as <-.
Qed.

(** C8.  A second reload right after a first one, over the same files,
    completes the same way and leaves the same cache and the same
    compilation database as the first; a reload does not write the disk. *)
Theorem reload_twice_same_snapshots st :
  let '(st1, r1) := _reloadPostConfigure st in
  let '(st2, r2) := _reloadPostConfigure st1 in
  disk st1 = disk st
  /\ r2 = r1
  /\ _cmakeCache (driver st2) = _cmakeCache (driver st1)
  /\ _compilationDatabase (driver st2) = _compilationDatabase (driver st1).
Proof.
  pose proof (reload_keeps_disk st) as Hdisk.
  destruct (_reloadPostConfigure st) as [st1 r1] eqn:Hone. cbn in Hdisk.
  destruct (cache_load cachePath (disk st)) as [c|e] eqn:Hload.
  - destruct (reload_returned st c Hload) as (st1' & Hrun & Hc1 & Hdb1 & _).
    rewrite Hone in Hrun. injection Hrun as <- ->.
    rewrite <- Hdisk in Hload, Hdb1.
    destruct (reload_returned st1 c Hload) as (st2 & -> & Hc2 & Hdb2 & _).
    repeat split; congruence.
  - rewrite (reload_thrown st e Hload) in Hone. injection Hone as <- <-.
    cbn in Hdisk. rewrite (reload_thrown _ e) by (cbn; exact Hload).
    done.
Qed.

(** ** Compilation info lookup *)

(** C6.  With no compilation database loaded the lookup returns null; with
    a database loaded it returns the record stored under the normalized
    path, so null when the file has no entry.  Neither case throws; the
    lookup throws only when the stored load itself was rejected. *)
Theorem compilationInfoForFile_absent_is_null (filepath : string) st :
  match _compilationDatabase (driver st) with
  | Resolved None =>
      snd (compilationInfoForFile filepath st) = Returned None
  | Resolved (Some db) =>
      snd (compilationInfoForFile filepath st)
      = Returned (info_by_filepath db !! normalizePath (fsPath (Uri_file filepath)))
      /\ (info_by_filepath db !! normalizePath (fsPath (Uri_file filepath)) = None ->
          snd (compilationInfoForFile filepath st) = Returned None)
  | Rejected e =>
      snd (compilationInfoForFile filepath st) = Thrown e
  end.
Proof.
  unfold compilationInfoForFile, mbind, M_bind, await, get_driver, settle.
  destruct (_compilationDatabase (driver st)) as [[db|]|e]; cbn; try done.
  split; [done|]. unfold getCompilationInfoForUri. by intros ->.
Qed.

(** ** Running a configure *)

(** The steps of [doConfigure], once the array behind [args_] is known. *)
Lemma doConfigure_run (args_ : loc) (oc : option OutputConsumer) st argv :
  heap st !! args_ = Some argv ->
  doConfigure args_ oc st =
    let args := length (heap st) in
    let '(d', r) := proc_execute cmakePath (argv ++ generated_args) oc (disk st) in
    let st1 :=
      emit (EvSuspend (driver st))
        (emit (EvExec cmakePath args (argv ++ generated_args))
           (with_disk d' (with_heap (heap st ++ [argv ++ generated_args]) st))) in
    match r with
    | Thrown e => (st1, Thrown e)
    | Returned res =>
        let st2 := if retc_is_zero res then fst (set_needsReconfigure false st1) else st1 in
        match await _reloadPostConfigure st2 with
        | (st3, Returned _) =>
            (st3, Returned (match retc res with None => -1 | Some n => n end))
        | (st3, Thrown e) => (st3, Thrown e)
        end
    end.
Proof.
  intros Hargs.
  unfold doConfigure, mbind, M_bind, Array_from, Array_literal, Array_push.
  rewrite Hargs. cbn.
  rewrite heap_alloc_lookup, heap_alloc_insert. cbn.
  rewrite heap_alloc_lookup, heap_alloc_insert. cbn.
  unfold await at 1. unfold executeCommand. cbn.
  rewrite heap_alloc_lookup, <- app_assoc. cbn.
  fold generated_args.
  destruct (proc_execute _ _ _ _) as [d' [res|e]]; cbn; [|done].
  destruct (retc_is_zero res); cbn;
    destruct (await _reloadPostConfigure _) as [st3 [[]|e]]; done.
Qed.

(** The store, the disk and the trace after a configure. *)
Lemma doConfigure_frame (args_ : loc) (oc : option OutputConsumer) st argv :
  heap st !! args_ = Some argv ->
  exists st' r evs,
    doConfigure args_ oc st = (st', r)
    /\ heap st' = heap st ++ [argv ++ generated_args]
    /\ disk st' = fst (proc_execute cmakePath (argv ++ generated_args) oc (disk st))
    /\ trace st'
       = trace st
         ++ [EvExec cmakePath (length (heap st)) (argv ++ generated_args);
             EvSuspend (driver st)]
         ++ evs
    /\ (forall cmd a l, EvExec cmd a l ∉ evs)
    /\ match snd (proc_execute cmakePath (argv ++ generated_args) oc (disk st)) with
       | Thrown e => evs = [] /\ r = Thrown e
       | Returned res =>
           exists d1 evs',
             evs = [EvLoadCache cachePath; EvSuspend d1] ++ evs'
             /\ _needsReconfigure d1
                = (if retc_is_zero res then false else _needsReconfigure (driver st))
       end.
Proof.
  intros Hargs. rewrite (doConfigure_run _ _ _ _ Hargs).
  destruct (proc_execute _ _ _ _) as [d' [res|e]]; cbn zeta; cbn [fst snd].
  - set (st1 := emit _ _).
    set (st2 := if retc_is_zero res then _ else _).
    assert (heap st2 = heap st ++ [argv ++ generated_args]
            /\ disk st2 = d'
            /\ trace st2 = trace st1
            /\ _needsReconfigure (driver st2)
               = if retc_is_zero res then false else _needsReconfigure (driver st))
      as (Hheap2 & Hdisk2 & Htrace2 & Hflag2)
      by (subst st2; by destruct (retc_is_zero res)).
    unfold await.
    destruct (reload_frame st2)
      as (st3 & r & evs & -> & _ & _ & Hdisk & Hheap & Htrace & Hnoexec).
    exists (emit (EvSuspend (driver st3)) st3).
    exists (match r with
            | Returned _ => Returned (match retc res with None => -1 | Some n => n end)
            | Thrown e => Thrown e
            end).
    exists ([EvLoadCache cachePath; EvSuspend (driver st2)] ++ evs ++ [EvSuspend (driver st3)]).
    split_and!.
    + by destruct r as [[]|].
    + cbn. congruence.
    + cbn. congruence.
    + cbn. rewrite Htrace, Htrace2. subst st1. cbn.
      by rewrite <- !app_assoc.
    + intros cmd a l Hin.
      apply elem_of_app in Hin as [Hin|Hin]; [event_cases Hin|].
      apply elem_of_app in Hin as [Hin|Hin]; [by eapply Hnoexec|event_cases Hin].
    + exists (driver st2). eexists. split; [reflexivity|done].
  - eexists _, _, []. split_and!; try done.
    + cbn. by rewrite <- app_assoc.
    + intros cmd a l Hin. event_cases Hin.
Qed.

Lemma retc_is_zero_true (res : ExecutionResult) :
  retc_is_zero res = true <-> retc res = Some 0.
Proof.
  unfold retc_is_zero. destruct (retc res) as [n|]; [|done].
  rewrite Z.eqb_eq. split; congruence.
Qed.

(** The flag and the completion of a configure whose process completed. *)
Lemma doConfigure_outcome (args_ : loc) (oc : option OutputConsumer) st argv d' res :
  heap st !! args_ = Some argv ->
  proc_execute cmakePath (argv ++ generated_args) oc (disk st) = (d', Returned res) ->
  _needsReconfigure (driver (fst (doConfigure args_ oc st)))
  = (if retc_is_zero res then false else _needsReconfigure (driver st))
  /\ snd (doConfigure args_ oc st)
     = match cache_load cachePath d' with
       | Returned _ => Returned (match retc res with None => -1 | Some n => n end)
       | Thrown e => Thrown e
       end.
Proof.
  intros Hargs Hexec.
  rewrite (doConfigure_run _ _ _ _ Hargs), Hexec. cbn zeta.
  set (st1 := emit _ _).
  set (st2 := if retc_is_zero res then _ else _).
  assert (disk st2 = d'
          /\ _needsReconfigure (driver st2)
             = if retc_is_zero res then false else _needsReconfigure (driver st))
    as [Hdisk Hflag2] by (subst st2; by destruct (retc_is_zero res)).
  unfold await.
  destruct (reload_frame st2) as (st3 & r & evs & -> & Hr & Hflag & _).
  rewrite Hdisk in Hr.
  destruct (cache_load cachePath d') as [c|e]; subst r; cbn; by rewrite Hflag.
Qed.

(** C1, as the code has it.  When the build tool completes with exit code
    0, [needsReconfigure] is false after the call.  With any other exit
    code, null included, the call leaves [needsReconfigure] as it found
    it: true if it was true.  When the reload that follows succeeds, the
    call returns the exit code, and -1 for a null one; when the reload
    throws, the call throws the same error and returns no code. *)
Theorem doConfigure_flag_and_code (args_ : loc) (oc : option OutputConsumer) st argv d' res :
  heap st !! args_ = Some argv ->
  proc_execute cmakePath (argv ++ generated_args) oc (disk st) = (d', Returned res) ->
  let '(st', r) := doConfigure args_ oc st in
  (retc res = Some 0 -> needsReconfigure st' = false)
  /\ (retc res <> Some 0 -> needsReconfigure st' = needsReconfigure st)
  /\ match cache_load cachePath d' with
     | Returned _ => r = Returned (match retc res with None => -1 | Some n => n end)
     | Thrown e => r = Thrown e
     end.
Proof.
  intros Hargs Hexec.
  destruct (doConfigure_outcome args_ oc st argv d' res Hargs Hexec) as [Hflag Hr].
  destruct (doConfigure args_ oc st) as [st' r]. cbn in Hflag, Hr.
  unfold needsReconfigure. rewrite Hflag. split_and!.
  - intros Hcode%retc_is_zero_true. by rewrite Hcode.
  - intros Hcode. destruct (retc_is_zero res) eqn:Hz; [|done].
    by apply retc_is_zero_true in Hz.
  - by destruct (cache_load cachePath d').
Qed.

(** The cache a configure leaves is the one on the disk the process left. *)
Lemma doConfigure_cache (args_ : loc) (oc : option OutputConsumer) st argv d' res c :
  heap st !! args_ = Some argv ->
  proc_execute cmakePath (argv ++ generated_args) oc (disk st) = (d', Returned res) ->
  cache_load cachePath d' = Returned c ->
  _cmakeCache (driver (fst (doConfigure args_ oc st))) = Some c.
Proof.
  intros Hargs Hexec Hload.
  rewrite (doConfigure_run _ _ _ _ Hargs), Hexec. cbn zeta.
  set (st1 := emit _ _).
  set (st2 := if retc_is_zero res then _ else _).
  assert (disk st2 = d') as Hdisk by (subst st2; by destruct (retc_is_zero res)).
  unfold await. rewrite <- Hdisk in Hload.
  by destruct (reload_returned st2 c Hload) as (st3 & -> & Hcache & _).
Qed.

(** C2.  Whatever exit code the build tool completes with, the call goes
    on to reload: in the trace the execution of the tool comes first,
    then the load of the cache file by the reload, and the tool is not run
    again.  The reload reads the disk the tool left: on success the
    driver's cache is the one loaded from it, otherwise the load error is
    what the call throws. *)
Theorem doConfigure_reloads_after_process
    (args_ : loc) (oc : option OutputConsumer) st argv d' res :
  heap st !! args_ = Some argv ->
  proc_execute cmakePath (argv ++ generated_args) oc (disk st) = (d', Returned res) ->
  let '(st', r) := doConfigure args_ oc st in
  (exists a d1 evs,
     trace st'
     = trace st
       ++ [EvExec cmakePath a (argv ++ generated_args); EvSuspend (driver st);
           EvLoadCache cachePath; EvSuspend d1]
       ++ evs
     /\ forall cmd a' l, EvExec cmd a' l ∉ evs)
  /\ match cache_load cachePath d' with
     | Returned c => _cmakeCache (driver st') = Some c
     | Thrown e => r = Thrown e
     end.
Proof.
  intros Hargs Hexec.
  destruct (doConfigure_outcome args_ oc st argv d' res Hargs Hexec) as [_ Hr].
  pose proof (fun c => doConfigure_cache args_ oc st argv d' res c Hargs Hexec) as Hcache.
  destruct (doConfigure_frame args_ oc st argv Hargs)
    as (st' & r & evs & Hrun & _ & _ & Htrace & Hnoexec & Hev).
  rewrite Hrun in *. cbn in Hr, Hcache. rewrite Hexec in Hev. cbn in Hev.
  destruct Hev as (d1 & evs' & -> & _). split.
  - exists (length (heap st)), d1, evs'. split; [exact Htrace|].
    intros cmd a' l Hin. apply (Hnoexec cmd a' l).
    by do 2 apply list_elem_of_further.
  - destruct (cache_load cachePath d') as [c|e]; auto.
Qed.

(** C7.  The process runner is called once, with the configured tool and
    the caller's arguments followed by the source-directory selector and
    then the binary-directory selector, each with its normalized path. *)
Theorem doConfigure_process_arguments (args_ : loc) (oc : option OutputConsumer) st argv :
  heap st !! args_ = Some argv ->
  let st' := fst (doConfigure args_ oc st) in
  (exists a evs,
     trace st'
     = trace st
       ++ EvExec cmakePath a
            (argv ++ ["-H" +:+ normalizePath sourceDir; "-B" +:+ normalizePath binaryDir])
          :: evs
     /\ forall cmd a' l, EvExec cmd a' l ∉ evs)
  /\ disk st'
     = fst (proc_execute cmakePath
              (argv ++ ["-H" +:+ normalizePath sourceDir; "-B" +:+ normalizePath binaryDir])
              oc (disk st)).
Proof.
  intros Hargs.
  destruct (doConfigure_frame args_ oc st argv Hargs)
    as (st' & r & evs & Hrun & _ & Hdisk & Htrace & Hnoexec & _).
  rewrite Hrun. cbn. split; [|exact Hdisk].
  exists (length (heap st)), (EvSuspend (driver st) :: evs).
  split; [exact Htrace|].
  intros cmd a' l Hin.
  apply elem_of_cons in Hin as [Hin|Hin]; [discriminate|by eapply Hnoexec].
Qed.

(** C9.  When the build tool exits with code 0 the flag is already false
    while the reload is loading the cache file.  If that load fails, the
    call throws the load error instead of returning a code, and
    [needsReconfigure] is false after it. *)
Theorem doConfigure_clears_flag_before_reload
    (args_ : loc) (oc : option OutputConsumer) st argv d' res :
  heap st !! args_ = Some argv ->
  proc_execute cmakePath (argv ++ generated_args) oc (disk st) = (d', Returned res) ->
  retc res = Some 0 ->
  let '(st', r) := doConfigure args_ oc st in
  (exists a d1 evs,
     trace st'
     = trace st
       ++ [EvExec cmakePath a (argv ++ generated_args); EvSuspend (driver st);
           EvLoadCache cachePath; EvSuspend d1]
       ++ evs
     /\ _needsReconfigure d1 = false)
  /\ forall e, cache_load cachePath d' = Thrown e ->
       r = Thrown e /\ needsReconfigure st' = false.
Proof.
  intros Hargs Hexec Hcode%retc_is_zero_true.
  destruct (doConfigure_outcome args_ oc st argv d' res Hargs Hexec) as [Hflag Hr].
  destruct (doConfigure_frame args_ oc st argv Hargs)
    as (st' & r & evs & Hrun & _ & _ & Htrace & _ & Hev).
  rewrite Hrun in *. cbn in Hflag, Hr.
  rewrite Hexec in Hev. cbn in Hev.
  destruct Hev as (d1 & evs' & -> & Hd1).
  rewrite Hcode in Hd1, Hflag. split.
  - by exists (length (heap st)), d1, evs'.
  - intros e Hload. by rewrite Hload in Hr.
Qed.

(** C10.  The array the caller passes is not written: after the call it
    holds the same elements, as does every array that existed before.  The
    two generated arguments are in a new array, and that one is handed to
    the process runner. *)
Theorem doConfigure_keeps_caller_array (args_ : loc) (oc : option OutputConsumer) st argv :
  heap st !! args_ = Some argv ->
  let st' := fst (doConfigure args_ oc st) in
  heap st' !! args_ = Some argv
  /\ (forall b l, heap st !! b = Some l -> heap st' !! b = Some l)
  /\ exists a,
       a <> args_
       /\ heap st !! a = None
       /\ heap st' !! a = Some (argv ++ generated_args)
       /\ EvExec cmakePath a (argv ++ generated_args) ∈ trace st'.
Proof.
  intros Hargs.
  destruct (doConfigure_frame args_ oc st argv Hargs)
    as (st' & r & evs & Hrun & Hheap & _ & Htrace & _).
  rewrite Hrun. cbn. rewrite Hheap, Htrace.
  split_and!.
  - by apply heap_alloc_old.
  - intros b l Hb. by apply heap_alloc_old.
  - exists (length (heap st)). split_and!.
    + apply (heap_alloc_old _ (argv ++ generated_args)) in Hargs as [_ Hne]. congruence.
    + apply heap_alloc_fresh.
    + apply heap_alloc_lookup.
    + apply elem_of_app. right. apply elem_of_cons. by left.
Qed.

(** ** Kit change and clean configure *)

(** The steps of [doSetKit]. *)
Lemma doSetKit_run (need_clean : bool) (cb : M C unit) st :
  doSetKit need_clean cb st =
    let s1 := fst (set_needsReconfigure true st) in
    if need_clean then
      let '(d', r) := pr_rmdir binaryDir (disk st) in
      let s2 := emit (EvSuspend (driver s1)) (emit (EvRmdir binaryDir) (with_disk d' s1)) in
      match r with
      | Returned _ => await cb s2
      | Thrown e => (s2, Thrown e)
      end
    else await cb s1.
Proof.
  unfold doSetKit, mbind, M_bind. cbn.
  destruct need_clean; [|done].
  unfold await at 1, fs_rmdir. cbn.
  by destruct (pr_rmdir binaryDir (disk st)) as [d' [[]|e]].
Qed.

Lemma await_keeps_flag (cb : M C unit) (s : St C) :
  (forall s, needsReconfigure (fst (cb s)) = needsReconfigure s) ->
  needsReconfigure (fst (await cb s)) = needsReconfigure s.
Proof.
  intros Hcb. unfold await. rewrite <- (Hcb s). by destruct (cb s).
Qed.

(** C4.  [doSetKit] sets the flag before anything else.  When a clean is
    required and the deletion of the binary directory fails, that error
    is the completion of the call and the callback is not run.
    Otherwise the callback is run, in a state [st0] where the flag is
    true and, when a clean was required, the binary directory does not
    exist; the call completes as the callback does.  The build tool is
    not run before the callback, and a callback that leaves the flag
    alone leaves it true after the call. *)
Theorem doSetKit_sets_flag_and_cleans `{!FsLaws C} (need_clean : bool) st :
  exists st0 evs,
    needsReconfigure st0 = true
    /\ trace st0 = trace st ++ evs
    /\ (forall cmd a l, EvExec cmd a l ∉ evs)
    /\ match (if need_clean then snd (pr_rmdir binaryDir (disk st)) else Returned tt) with
       | Thrown e => forall cb, doSetKit need_clean cb st = (st0, Thrown e)
       | Returned _ =>
           (need_clean = true -> pr_exists binaryDir (disk st0) = false)
           /\ forall cb, doSetKit need_clean cb st = await cb st0
       end
    /\ forall cb,
         (forall s, needsReconfigure (fst (cb s)) = needsReconfigure s) ->
         needsReconfigure (fst (doSetKit need_clean cb st)) = true.
Proof.
  set (s1 := fst (set_needsReconfigure true st)).
  destruct need_clean.
  - destruct (pr_rmdir binaryDir (disk st)) as [d' r] eqn:Hrm.
    exists (emit (EvSuspend (driver s1)) (emit (EvRmdir binaryDir) (with_disk d' s1))),
           [EvRmdir binaryDir; EvSuspend (driver s1)].
    split_and!.
    + reflexivity.
    + cbn. by rewrite <- app_assoc.
    + intros cmd a l Hin. event_cases Hin.
    + destruct r as [[]|e]; cbn.
      * split; [intros _; by eapply rmdir_removes|].
        intros cb. by rewrite doSetKit_run, Hrm.
      * intros cb. by rewrite doSetKit_run, Hrm.
    + intros cb Hcb. rewrite doSetKit_run, Hrm. cbn zeta.
      destruct r as [[]|e]; [|done]. by rewrite await_keeps_flag.
  - exists s1, []. split_and!.
    + reflexivity.
    + cbn. by rewrite app_nil_r.
    + intros cmd a l Hin. event_cases Hin.
    + done.
    + intros cb. by rewrite doSetKit_run.
    + intros cb Hcb. rewrite doSetKit_run. cbn zeta. by rewrite await_keeps_flag.
Qed.

(** The steps of [cleanConfigure], by the outcome of its two deletions. *)
Lemma cleanConfigure_run `{!FsLaws C}
    (consumer : option OutputConsumer) st :
  let cmake_files := path_join binaryDir "CMakeFiles" in
  let '(d1, r1) :=
    if pr_exists cachePath (disk st) then pr_unlink cachePath (disk st)
    else (disk st, Returned tt) in
  match r1 with
  | Thrown e =>
      exists st0, forall configure, cleanConfigure configure consumer st = (st0, Thrown e)
  | Returned _ =>
      let '(d2, r2) :=
        if pr_exists cmake_files d1 then pr_rmdir cmake_files d1
        else (d1, Returned tt) in
      match r2 with
      | Thrown e =>
          exists st0, forall configure, cleanConfigure configure consumer st = (st0, Thrown e)
      | Returned _ =>
          pr_exists cachePath d2 = false
          /\ pr_exists cmake_files d2 = false
          /\ exists st0 args evs,
               disk st0 = d2
               /\ heap st !! args = None
               /\ heap st0 !! args = Some []
               /\ trace st0 = trace st ++ evs
               /\ (forall cmd a l, EvExec cmd a l ∉ evs)
               /\ forall configure,
                    cleanConfigure configure consumer st = configure args consumer st0
      end
  end.
Proof.
  cbn zeta.
  unfold cleanConfigure, mbind, M_bind, await, fs_exists, fs_unlink, fs_rmdir, Array_literal.
  cbn.
  destruct (pr_exists cachePath (disk st)) eqn:Hcache; cbn.
  - destruct (pr_unlink cachePath (disk st)) as [d1 [[]|e]] eqn:Hunlink; cbn;
      [|by eexists].
    apply unlink_removes in Hunlink.
    destruct (pr_exists (path_join binaryDir "CMakeFiles") d1) eqn:Hfiles; cbn.
    + pose proof (rmdir_creates_nothing (path_join binaryDir "CMakeFiles") _ _ Hunlink)
        as Hkeep.
      destruct (pr_rmdir (path_join binaryDir "CMakeFiles") d1) as [d2 [[]|e]] eqn:Hrmdir;
        cbn; [|by eexists].
      apply rmdir_removes in Hrmdir. cbn in Hkeep.
      split_and!; [done|done|]. reaches_configure st.
    + split_and!; [done|done|]. reaches_configure st.
  - destruct (pr_exists (path_join binaryDir "CMakeFiles") (disk st)) eqn:Hfiles; cbn.
    + pose proof (rmdir_creates_nothing (path_join binaryDir "CMakeFiles") _ _ Hcache)
        as Hkeep.
      destruct (pr_rmdir (path_join binaryDir "CMakeFiles") (disk st))
        as [d2 [[]|e]] eqn:Hrmdir; cbn; [|by eexists].
      apply rmdir_removes in Hrmdir. cbn in Hkeep.
      split_and!; [done|done|]. reaches_configure st.
    + split_and!; [done|done|]. reaches_configure st.
Qed.

(** C5.  [cleanConfigure] deletes the cache file if it exists
    ([cache_step]), then the CMakeFiles directory of the binary directory
    if it exists ([files_step]).  If either deletion fails, its error is
    the completion of the call, whatever [configure] is: configure is not
    reached.  If both succeed, [configure] is called with a new empty
    array, on a disk where neither the cache file nor the CMakeFiles
    directory exists, and the call completes as [configure] does; the
    build tool is not run before that. *)
Theorem cleanConfigure_cleans_then_configures `{!FsLaws C}
    (consumer : option OutputConsumer) st :
  let cmake_files := path_join binaryDir "CMakeFiles" in
  let cache_step :=
    if pr_exists cachePath (disk st) then pr_unlink cachePath (disk st)
    else (disk st, Returned tt) in
  let files_step :=
    if pr_exists cmake_files (fst cache_step) then pr_rmdir cmake_files (fst cache_step)
    else (fst cache_step, Returned tt) in
  (forall e,
     snd cache_step = Thrown e ->
     exists st0, forall configure, cleanConfigure configure consumer st = (st0, Thrown e))
  /\ (forall e,
       snd cache_step = Returned tt ->
       snd files_step = Thrown e ->
       exists st0, forall configure, cleanConfigure configure consumer st = (st0, Thrown e))
  /\ (snd cache_step = Returned tt ->
      snd files_step = Returned tt ->
      pr_exists cachePath (fst files_step) = false
      /\ pr_exists cmake_files (fst files_step) = false
      /\ exists st0 args evs,
           disk st0 = fst files_step
           /\ heap st !! args = None
           /\ heap st0 !! args = Some []
           /\ trace st0 = trace st ++ evs
           /\ (forall cmd a l, EvExec cmd a l ∉ evs)
           /\ forall configure,
                cleanConfigure configure consumer st = configure args consumer st0).
Proof.
  intros cmake_files cache_step files_step.
  pose proof (cleanConfigure_run consumer st) as Hrun. cbn zeta in Hrun.
  fold cmake_files cache_step in Hrun.
  subst files_step.
  destruct cache_step as [d1 r1]. cbn [fst snd].
  destruct r1 as [[]|e1].
  - fold cmake_files in Hrun.
    destruct (if pr_exists cmake_files d1 then _ else _) as [d2 [[]|e2]]; cbn [fst snd].
    + split_and!; [discriminate|discriminate|done].
    + split_and!; [discriminate| |discriminate].
      by intros e _ [= <-].
  - split_and!; [|discriminate|discriminate].
    by intros e [= <-].
Qed.

End Proofs.

(** * The in-memory instance *)

Lemma mem_filter_absent (keep : string * string -> bool) (p : string) (d : mem_disk) :
  (forall e, String.eqb (fst e) p = true -> keep e = false) ->
  mem_exists p (List.filter keep d) = false.
Proof.
  intros Hkeep. induction d as [|e d IH]; [done|].
  cbn. destruct (keep e) eqn:He; [|exact IH].
  cbn. fold (mem_exists p (List.filter keep d)). rewrite IH.
  destruct (String.eqb (fst e) p) eqn:Hp; [|done].
  apply Hkeep in Hp. congruence.
Qed.

Lemma mem_filter_creates_nothing (keep : string * string -> bool) (q : string) (d : mem_disk) :
  mem_exists q d = false -> mem_exists q (List.filter keep d) = false.
Proof.
  induction d as [|e d IH]; [done|].
  cbn. intros [He Hd]%orb_false_iff.
  destruct (keep e); cbn; [rewrite He|]; by apply IH.
Qed.

Lemma mem_fs_laws (code : option Z) (writes : mem_disk) (locked : list string) :
  FsLaws (mem_collaborators code writes locked).
Proof.
  split; cbn.
  - intros p d d'. unfold mem_unlink.
    destruct (mem_is_locked locked p); [discriminate|].
    intros [= <-]. apply mem_filter_absent.
    by intros e ->.
  - intros p d d'. unfold mem_rmdir.
    destruct (existsb (mem_under p) locked); [discriminate|].
    intros [= <-]. apply mem_filter_absent.
    intros e ->%String.eqb_eq. unfold mem_under.
    by rewrite String.eqb_refl.
  - intros p q d Hq. unfold mem_rmdir.
    destruct (existsb (mem_under p) locked); [exact Hq|].
    cbn. by apply mem_filter_creates_nothing.
Qed.

(** * The theorems at concrete inputs *)

(** The first configure of a new driver: the tool exits with 0 and the
    reload succeeds, so the flag is cleared and 0 is returned. *)
Lemma doConfigure_flag_and_code_witness :
  heap first_configure !! 0%nat = Some ["-G"; "Ninja"]
  /\ @proc_execute working_tool (@cmakePath working_tool)
       (["-G"; "Ninja"] ++ @generated_args working_tool) None
       (disk first_configure)
     = ([("/build/CMakeCache.txt", "Foo"); ("/build/compile_commands.json", "/src/a.c")],
        Returned {| retc := Some 0; stdout := ""; stderr := "" |})
  /\ needsReconfigure (fst (doConfigure 0%nat None first_configure)) = false
  /\ snd (doConfigure 0%nat None first_configure) = Returned 0.
Proof.
  split; [reflexivity|]. split; [reflexivity|].
  pose proof (doConfigure_flag_and_code (C := working_tool) 0%nat None first_configure
                ["-G"; "Ninja"] _ _ eq_refl eq_refl) as H.
  destruct (doConfigure 0%nat None first_configure) as [st' r].
  destruct H as (Hflag & _ & Hr). split; [by apply Hflag|exact Hr].
Defined.

(** A configured driver whose next configure fails with exit code 1: the
    code is returned, and the flag, false before the call, is still
    false after it. *)
Lemma doConfigure_failure_leaves_flag_cleared :
  needsReconfigure reconfigure_fails = false
  /\ snd (@proc_execute failing_tool (@cmakePath failing_tool)
            (["-G"; "Ninja"] ++ @generated_args failing_tool) None
            (disk reconfigure_fails))
     = Returned {| retc := Some 1; stdout := ""; stderr := "" |}
  /\ snd (doConfigure 0%nat None reconfigure_fails) = Returned 1
  /\ needsReconfigure (fst (doConfigure 0%nat None reconfigure_fails)) <> true.
Proof.
  split_and!; [reflexivity|reflexivity|reflexivity|].
  vm_compute. discriminate.
Qed.

(** The first configure of a new driver reloads after the tool ran, and
    the cache it leaves is the one the tool wrote. *)
Lemma doConfigure_reloads_after_process_witness :
  heap first_configure !! 0%nat = Some ["-G"; "Ninja"]
  /\ @proc_execute working_tool (@cmakePath working_tool)
       (["-G"; "Ninja"] ++ @generated_args working_tool) None (disk first_configure)
     = ([("/build/CMakeCache.txt", "Foo"); ("/build/compile_commands.json", "/src/a.c")],
        Returned {| retc := Some 0; stdout := ""; stderr := "" |})
  /\ (exists a d1 evs,
        trace (fst (doConfigure 0%nat None first_configure))
        = [EvExec "cmake" a ["-G"; "Ninja"; "-H/src"; "-B/build"];
           EvSuspend new_LegacyCMakeDriver;
           EvLoadCache "/build/CMakeCache.txt"; EvSuspend d1] ++ evs)
  /\ (cmakeCache (fst (doConfigure 0%nat None first_configure))
      ≫= fun c => CMakeCache_get c "CMAKE_PROJECT_NAME")
     = Some {| key := "CMAKE_PROJECT_NAME"; type := STATIC; value := "Foo" |}.
Proof.
  split; [reflexivity|]. split; [reflexivity|].
  pose proof (doConfigure_reloads_after_process (C := working_tool) 0%nat None
                first_configure ["-G"; "Ninja"] _ _ eq_refl eq_refl) as H.
  destruct (doConfigure 0%nat None first_configure) as [st' r].
  destruct H as [(a & d1 & evs & Htrace & _) Hcache]. split.
  - exists a, d1, evs. exact Htrace.
  - unfold cmakeCache. cbn in Hcache |- *. rewrite Hcache. reflexivity.
Defined.

(** The first configure of a new driver calls the tool with the caller's
    two arguments and then the two selectors. *)
Lemma doConfigure_process_arguments_witness :
  heap first_configure !! 0%nat = Some ["-G"; "Ninja"]
  /\ exists a evs,
       trace (fst (doConfigure 0%nat None first_configure))
       = EvExec "cmake" a ["-G"; "Ninja"; "-H/src"; "-B/build"] :: evs.
Proof.
  split; [reflexivity|].
  destruct (doConfigure_process_arguments (C := working_tool) 0%nat None
              first_configure ["-G"; "Ninja"] eq_refl)
    as [(a & evs & Htrace & _) _].
  exists a, evs. exact Htrace.
Defined.

(** The tool exits with 0 and leaves a cache file that does not parse: the
    call throws the parse error, and the flag is false. *)
Lemma doConfigure_clears_flag_before_reload_witness :
  heap first_configure_corrupt !! 0%nat = Some []
  /\ @proc_execute corrupting_tool (@cmakePath corrupting_tool)
       ([] ++ @generated_args corrupting_tool) None (disk first_configure_corrupt)
     = ([("/build/CMakeCache.txt", "corrupt")],
        Returned {| retc := Some 0; stdout := ""; stderr := "" |})
  /\ Some 0 = Some 0
  /\ snd (doConfigure 0%nat None first_configure_corrupt) = Thrown "cannot parse the cache"
  /\ needsReconfigure (fst (doConfigure 0%nat None first_configure_corrupt)) = false.
Proof.
  split; [reflexivity|]. split; [reflexivity|]. split; [reflexivity|].
  pose proof (doConfigure_clears_flag_before_reload (C := corrupting_tool) 0%nat None
                first_configure_corrupt [] _ _ eq_refl eq_refl eq_refl) as H.
  destruct (doConfigure 0%nat None first_configure_corrupt) as [st' r].
  destruct H as [_ H]. exact (H "cannot parse the cache" eq_refl).
Defined.

(** After the first configure of a new driver the caller's array still
    holds its two arguments. *)
Lemma doConfigure_keeps_caller_array_witness :
  heap first_configure !! 0%nat = Some ["-G"; "Ninja"]
  /\ heap (fst (doConfigure 0%nat None first_configure)) !! 0%nat = Some ["-G"; "Ninja"].
Proof.
  split; [reflexivity|].
  exact (proj1 (doConfigure_keeps_caller_array (C := working_tool) 0%nat None
                  first_configure ["-G"; "Ninja"] eq_refl)).
Defined.

(** A kit change with a clean, on a binary directory left by an earlier
    build: the flag of the configured driver is true after the call. *)
Lemma doSetKit_sets_flag_and_cleans_witness :
  FsLaws working_tool
  /\ needsReconfigure (fst (doSetKit true apply_kit built_before)) = true.
Proof.
  split; [apply mem_fs_laws|].
  destruct (doSetKit_sets_flag_and_cleans (C := working_tool)
              (FsLaws0 := mem_fs_laws _ _ _) true built_before)
    as (st0 & evs & _ & _ & _ & _ & Hflag).
  apply Hflag. intros s. reflexivity.
Defined.

(** A clean configure on a binary directory left by an earlier build:
    configure starts on a disk without the cache file and without the
    CMakeFiles directory. *)
Lemma cleanConfigure_cleans_then_configures_witness :
  FsLaws working_tool
  /\ exists st0 args,
       pr_exists "/build/CMakeCache.txt" (disk st0) = false
       /\ pr_exists "/build/CMakeFiles" (disk st0) = false
       /\ heap st0 !! args = Some []
       /\ cleanConfigure configure None built_before = configure args None st0.
Proof.
  split; [apply mem_fs_laws|].
  pose proof (cleanConfigure_cleans_then_configures (C := working_tool)
                (FsLaws0 := mem_fs_laws _ _ _) None built_before) as H.
  destruct H as (_ & _ & H).
  destruct (H eq_refl eq_refl)
    as (Hcache & Hfiles & st0 & args & evs & Hdisk & _ & Hargs & _ & _ & Hrun).
  exists st0, args. rewrite Hdisk. split_and!.
  - exact Hcache.
  - exact Hfiles.
  - exact Hargs.
  - exact (Hrun configure).
Defined.

(** With a cache file that cannot be deleted, a clean configure throws the
    error of the deletion and the build tool is not run; a kit change
    with a clean throws it too, with the flag set. *)
Example cleanConfigure_locked_cache_throws :
  snd (cleanConfigure configure None built_before_locked)
  = Thrown "EPERM: operation not permitted"
  /\ trace (fst (cleanConfigure configure None built_before_locked))
     = [EvExists "/build/CMakeCache.txt"; EvSuspend configured_driver;
        EvUnlink "/build/CMakeCache.txt"; EvSuspend configured_driver].
Proof. split; reflexivity. Qed.

Example doSetKit_locked_cache_throws :
  snd (doSetKit true (fun st => (st, Returned tt)) built_before_locked)
  = Thrown "EPERM: operation not permitted"
  /\ needsReconfigure (fst (doSetKit true (fun st => (st, Returned tt)) built_before_locked))
     = true.
Proof. split; reflexivity. Qed.

(** * Further properties of the driver *)

Section MoreProofs.

Context {C : Collaborators}.

Implicit Types (st : St C) (h : Host C) (argv : list string).

Ltac in_events H :=
  apply list_elem_of_In in H; cbn in H;
  repeat (destruct H as [H|H]; [try discriminate H|]);
  try contradiction.

(** ** Reload *)

(** X1.  A reload that loads a cache with a CMAKE_PROJECT_NAME entry sets
    the project name to its value, through the setter, once.  When the
    loaded cache has no such entry the setter is not called and the
    project name of before is kept; the same when the load throws. *)
Theorem reload_project_name st :
  let st' := fst (_reloadPostConfigure st) in
  exists evs,
    trace st' = trace st ++ evs
    /\ match cache_load cachePath (disk st) with
       | Returned c =>
           match CMakeCache_get c "CMAKE_PROJECT_NAME" with
           | Some project =>
               projectName (driver st') = Some (value project)
               /\ List.filter (fun ev => match ev with EvSetProjectName _ => true | _ => false end) evs
                  = [EvSetProjectName (value project)]
           | None =>
               projectName (driver st') = projectName (driver st)
               /\ forall v, EvSetProjectName v ∉ evs
           end
       | Thrown _ =>
           projectName (driver st') = projectName (driver st)
           /\ forall v, EvSetProjectName v ∉ evs
       end.
Proof.
  cbn zeta.
  destruct (cache_load cachePath (disk st)) as [c|e] eqn:Hload.
  - destruct (reload_returned st c Hload)
      as (st' & -> & _ & _ & _ & Hname & _ & _ & Htrace).
    cbn [fst]. eexists. split; [exact Htrace|].
    destruct (CMakeCache_get c "CMAKE_PROJECT_NAME") as [project|].
    + split; [exact Hname|reflexivity].
    + split; [exact Hname|]. intros v Hin. in_events Hin.
  - rewrite (reload_thrown st e Hload). cbn [fst].
    exists [EvLoadCache cachePath; EvSuspend (driver st)]. split.
    + cbn. by rewrite <- app_assoc.
    + split; [done|]. intros v Hin. in_events Hin.
Qed.

(** X2.  Whether it returns or throws, a reload leaves [needsReconfigure]
    as it was, writes neither the disk nor any array, and neither runs
    the build tool nor deletes anything. *)
Theorem reload_touches_only_snapshots st :
  let st' := fst (_reloadPostConfigure st) in
  needsReconfigure st' = needsReconfigure st
  /\ disk st' = disk st
  /\ heap st' = heap st
  /\ exists evs,
       trace st' = trace st ++ evs
       /\ forall ev, ev ∈ evs ->
            match ev with
            | EvExec _ _ _ | EvUnlink _ | EvRmdir _ => False
            | _ => True
            end.
Proof.
  cbn zeta.
  destruct (cache_load cachePath (disk st)) as [c|e] eqn:Hload.
  - destruct (reload_returned st c Hload)
      as (st' & -> & _ & _ & Hflag & _ & Hdisk & Hheap & Htrace).
    cbn [fst]. split_and!; [exact Hflag|exact Hdisk|exact Hheap|].
    eexists. split; [exact Htrace|].
    intros ev Hin.
    destruct (CMakeCache_get c "CMAKE_PROJECT_NAME"); in_events Hin; by subst ev.
  - rewrite (reload_thrown st e Hload). cbn [fst]. split_and!; [done|done|done|].
    exists [EvLoadCache cachePath; EvSuspend (driver st)]. split.
    + cbn. by rewrite <- app_assoc.
    + intros ev Hin. in_events Hin; by subst ev.
Qed.

(** X3.  The load of the compile-commands file is started by the reload
    but not awaited: a reload whose cache loads returns normally even
    when that load is rejected.  A lookup after the reload then
    completes as the load settled: it throws the load's error, returns
    null when there is no database, and otherwise the record stored under
    the normalized path. *)
Theorem lookup_after_reload (filepath : string) st c :
  cache_load cachePath (disk st) = Returned c ->
  let '(st', r) := _reloadPostConfigure st in
  r = Returned tt
  /\ snd (compilationInfoForFile filepath st')
     = match compdb_load (path_join binaryDir "compile_commands.json") (disk st) with
       | Thrown e => Thrown e
       | Returned None => Returned None
       | Returned (Some db) =>
           Returned (info_by_filepath db !! normalizePath (fsPath (Uri_file filepath)))
       end.
Proof.
  intros Hload.
  destruct (reload_returned st c Hload) as (st' & -> & _ & Hdb & _).
  split; [done|].
  unfold compilationInfoForFile, mbind, M_bind, await, get_driver, settle.
  rewrite Hdb.
  by destruct (compdb_load _ _) as [[db|]|e].
Qed.

(** X4.  [doPostBuild] returns true when the cache loads, and the driver
    then holds that cache; otherwise it throws the load error with the
    driver as it was.  It never returns false, and it leaves
    [needsReconfigure] and the disk as they were. *)
Theorem doPostBuild_true_or_throws st :
  let '(st', r) := doPostBuild st in
  match cache_load cachePath (disk st) with
  | Returned c => r = Returned true /\ cmakeCache st' = Some c
  | Thrown e => r = Thrown e /\ driver st' = driver st
  end
  /\ r <> Returned false
  /\ needsReconfigure st' = needsReconfigure st
  /\ disk st' = disk st.
Proof.
  unfold doPostBuild, mbind, M_bind, await.
  destruct (cache_load cachePath (disk st)) as [c|e] eqn:Hload.
  - destruct (reload_returned st c Hload)
      as (st' & -> & Hcache & _ & Hflag & _ & Hdisk & _).
    cbn. by split_and!.
  - rewrite (reload_thrown st e Hload). cbn. by split_and!.
Qed.

(** X5.  After a reload that returns, [generatorName] is the value of the
    CMAKE_GENERATOR entry of the cache that was loaded, and null when that
    cache has no such entry; after a reload that throws it is what it
    was. *)
Theorem generatorName_after_reload st :
  let st' := fst (_reloadPostConfigure st) in
  match cache_load cachePath (disk st) with
  | Returned c => generatorName st' = value <$> (entries c !! "CMAKE_GENERATOR")
  | Thrown _ => generatorName st' = generatorName st
  end.
Proof.
  cbn zeta.
  destruct (cache_load cachePath (disk st)) as [c|e] eqn:Hload.
  - destruct (reload_returned st c Hload) as (st' & -> & Hcache & _).
    cbn [fst]. unfold generatorName, cmakeCache. rewrite Hcache.
    unfold CMakeCache_get, as_string.
    by destruct (entries c !! "CMAKE_GENERATOR").
  - by rewrite (reload_thrown st e Hload).
Qed.

(** ** Configure *)

(** X6.  When the process runner fails to run the tool, [doConfigure]
    throws that error without reloading: the driver is as before the
    call (flag, cache, database and project name), the caller's array is
    untouched, and the trace ends with the attempted execution. *)
Theorem doConfigure_process_rejection
    (args_ : loc) (oc : option OutputConsumer) st argv d' (e : Error) :
  heap st !! args_ = Some argv ->
  proc_execute cmakePath (argv ++ generated_args) oc (disk st) = (d', Thrown e) ->
  let '(st', r) := doConfigure args_ oc st in
  r = Thrown e
  /\ driver st' = driver st
  /\ disk st' = d'
  /\ heap st' !! args_ = Some argv
  /\ exists a,
       trace st'
       = trace st ++ [EvExec cmakePath a (argv ++ generated_args); EvSuspend (driver st)].
Proof.
  intros Hargs Hexec.
  rewrite (doConfigure_run _ _ _ _ Hargs), Hexec. cbn.
  split_and!; try done.
  - by apply heap_alloc_old.
  - exists (length (heap st)). by rewrite <- app_assoc.
Qed.

(** X7.  The generated arguments do not accumulate: a second configure
    with the same caller's array, whatever the first one did, runs the
    tool with the caller's arguments followed by the two selectors,
    once. *)
Theorem doConfigure_twice_same_arguments
    (args_ : loc) (oc oc' : option OutputConsumer) st argv :
  heap st !! args_ = Some argv ->
  let st1 := fst (doConfigure args_ oc st) in
  exists a evs,
    trace (fst (doConfigure args_ oc' st1))
    = trace st1 ++ EvExec cmakePath a (argv ++ generated_args) :: evs
    /\ forall cmd a' l, EvExec cmd a' l ∉ evs.
Proof.
  intros Hargs.
  destruct (doConfigure_frame args_ oc st argv Hargs)
    as (st1 & r1 & evs1 & -> & Hheap1 & _).
  cbn [fst].
  assert (heap st1 !! args_ = Some argv) as Hargs1.
  { rewrite Hheap1. by apply heap_alloc_old. }
  destruct (doConfigure_frame args_ oc' st1 argv Hargs1)
    as (st2 & r2 & evs2 & -> & _ & _ & Htrace & Hnoexec & _).
  exists (length (heap st1)), (EvSuspend (driver st1) :: evs2).
  split; [exact Htrace|].
  intros cmd a' l Hin.
  apply elem_of_cons in Hin as [Hin|Hin]; [discriminate|by eapply Hnoexec].
Qed.

(** X8.  Whatever the exit code, when the cache the tool left loads, the
    driver after [doConfigure] holds that cache, the project name is the
    value of its CMAKE_PROJECT_NAME entry (the name of before when it has
    none), [generatorName] is the value of its CMAKE_GENERATOR entry, and
    the compilation database is the load of the compile-commands file
    from the disk the tool left. *)
Theorem doConfigure_snapshots
    (args_ : loc) (oc : option OutputConsumer) st argv d' res c :
  heap st !! args_ = Some argv ->
  proc_execute cmakePath (argv ++ generated_args) oc (disk st) = (d', Returned res) ->
  cache_load cachePath d' = Returned c ->
  let st' := fst (doConfigure args_ oc st) in
  cmakeCache st' = Some c
  /\ projectName (driver st')
     = match entries c !! "CMAKE_PROJECT_NAME" with
       | Some project => Some (value project)
       | None => projectName (driver st)
       end
  /\ generatorName st' = value <$> (entries c !! "CMAKE_GENERATOR")
  /\ _compilationDatabase (driver st')
     = settled (compdb_load (path_join binaryDir "compile_commands.json") d').
Proof.
  intros Hargs Hexec Hload. cbn zeta.
  rewrite (doConfigure_run _ _ _ _ Hargs), Hexec. cbn zeta.
  set (st1 := emit _ _).
  set (st2 := if retc_is_zero res then _ else _).
  assert (disk st2 = d' /\ projectName (driver st2) = projectName (driver st))
    as [Hdisk Hname2] by (subst st2; by destruct (retc_is_zero res)).
  unfold await. rewrite <- Hdisk in Hload.
  destruct (reload_returned st2 c Hload)
    as (st3 & -> & Hcache & Hdb & _ & Hname & _).
  cbn [fst]. unfold generatorName, cmakeCache. cbn [driver emit].
  rewrite Hcache, Hdb, Hname, Hname2, Hdisk.
  unfold CMakeCache_get, as_string.
  by destruct (entries c !! "CMAKE_GENERATOR").
Qed.

(** ** Kit change and clean configure *)

(** X9.  A kit change invalidates nothing but the flag: when the callback
    starts, or when the deletion of the binary directory fails, the
    driver still holds the cache, the compilation database and the
    project name of before the call, also when the binary directory was
    just deleted. *)
Theorem doSetKit_keeps_snapshots (need_clean : bool) st :
  exists st0,
    _cmakeCache (driver st0) = _cmakeCache (driver st)
    /\ _compilationDatabase (driver st0) = _compilationDatabase (driver st)
    /\ projectName (driver st0) = projectName (driver st)
    /\ ((forall cb, doSetKit need_clean cb st = await cb st0)
        \/ exists e, forall cb, doSetKit need_clean cb st = (st0, Thrown e)).
Proof.
  destruct need_clean.
  - destruct (pr_rmdir binaryDir (disk st)) as [d' [[]|e]] eqn:Hrm.
    + eexists. split_and!; [..|left; intros cb; rewrite doSetKit_run, Hrm; reflexivity];
        reflexivity.
    + eexists. split_and!;
        [..|right; exists e; intros cb; rewrite doSetKit_run, Hrm; reflexivity];
        reflexivity.
  - eexists. split_and!; [..|left; intros cb; rewrite doSetKit_run; reflexivity];
      reflexivity.
Qed.

(** X10.  [cleanConfigure] does not touch the driver itself: the flag is
    not re-armed and the cache is not dropped.  The driver is as before
    the call when configure starts, and when a deletion fails. *)
Theorem cleanConfigure_keeps_driver (consumer : option OutputConsumer) st :
  exists st0,
    driver st0 = driver st
    /\ ((exists args, forall configure,
           cleanConfigure configure consumer st = configure args consumer st0)
        \/ exists e, forall configure,
             cleanConfigure configure consumer st = (st0, Thrown e)).
Proof.
  unfold cleanConfigure, mbind, M_bind, await, fs_exists, fs_unlink, fs_rmdir, Array_literal.
  cbn.
  destruct (pr_exists cachePath (disk st)); cbn.
  - destruct (pr_unlink cachePath (disk st)) as [d1 [[]|e]]; cbn.
    + destruct (pr_exists (path_join binaryDir "CMakeFiles") d1); cbn.
      * destruct (pr_rmdir (path_join binaryDir "CMakeFiles") d1) as [d2 [[]|e]]; cbn.
        -- eexists. split; [|left; eexists; intros configure; reflexivity]. reflexivity.
        -- eexists. split; [|right; eexists; intros configure; reflexivity]. reflexivity.
      * eexists. split; [|left; eexists; intros configure; reflexivity]. reflexivity.
    + eexists. split; [|right; eexists; intros configure; reflexivity]. reflexivity.
  - destruct (pr_exists (path_join binaryDir "CMakeFiles") (disk st)); cbn.
    + destruct (pr_rmdir (path_join binaryDir "CMakeFiles") (disk st)) as [d2 [[]|e]]; cbn.
      * eexists. split; [|left; eexists; intros configure; reflexivity]. reflexivity.
      * eexists. split; [|right; eexists; intros configure; reflexivity]. reflexivity.
    + eexists. split; [|left; eexists; intros configure; reflexivity]. reflexivity.
Qed.

(** ** The cache entries *)

Lemma reduce_set_lookup (l : list Entry) (acc : gmap string Entry) (k : string) (e : Entry) :
  util_reduce l acc (fun acc entry => <[key entry := entry]> acc) !! k = Some e ->
  acc !! k = Some e \/ (e ∈ l /\ key e = k).
Proof.
  unfold util_reduce. revert acc.
  induction l as [|x l IH]; intros acc Hk; cbn in Hk; [by left|].
  apply IH in Hk as [Hk|[Hin Hkey]].
  - rewrite lookup_insert in Hk. case_decide as Hx.
    + injection Hk as <-. right. split; [apply list_elem_of_here|done].
    + by left.
  - right. split; [by apply list_elem_of_further|done].
Qed.

Lemma reduce_set_well_keyed (l : list (string * Entry)) (acc : gmap string Entry) :
  (forall k e, (k, e) ∈ l -> key e = k) ->
  NoDup (fst <$> l) ->
  util_reduce (snd <$> l) acc (fun acc entry => <[key entry := entry]> acc)
  = list_to_map l ∪ acc.
Proof.
  unfold util_reduce. revert acc.
  induction l as [|[k e] l IH]; intros acc Hkeys Hnodup; cbn.
  - by rewrite (left_id ∅ (∪)).
  - apply NoDup_cons in Hnodup as [Hk Hnodup].
    rewrite IH; [|intros k' e' Hin; apply Hkeys; by apply list_elem_of_further|done].
    rewrite (Hkeys k e) by apply list_elem_of_here.
    rewrite <- insert_union_l.
    apply symmetry, insert_union_r.
    by apply not_elem_of_list_to_map_1.
Qed.

(** X11.  Every binding of [cmakeCacheEntries] maps the key of an entry of
    the driver's cache to that entry. *)
Theorem cmakeCacheEntries_keyed_by_entry_key st (k : string) (e : Entry) :
  cmakeCacheEntries st !! k = Some e ->
  key e = k
  /\ exists c k', cmakeCache st = Some c /\ entries c !! k' = Some e.
Proof.
  unfold cmakeCacheEntries.
  destruct (cmakeCache st) as [c|]; [|by rewrite lookup_empty].
  intros [Hk|[Hin Hkey]]%reduce_set_lookup; [by rewrite lookup_empty in Hk|].
  split; [done|]. exists c.
  unfold CMakeCache_allEntries in Hin.
  apply list_elem_of_fmap in Hin as ([k' e'] & -> & Hin).
  exists k'. split; [done|]. by apply elem_of_map_to_list.
Qed.

(** X12.  When every entry of the driver's cache is stored under its own
    key, [cmakeCacheEntries] is the mapping of the cache: a lookup in it
    agrees with [cache.get]. *)
Theorem cmakeCacheEntries_agrees_with_cache st (c : CMakeCache) :
  cmakeCache st = Some c ->
  (forall k e, entries c !! k = Some e -> key e = k) ->
  cmakeCacheEntries st = entries c
  /\ forall k, cmakeCacheEntries st !! k = CMakeCache_get c k.
Proof.
  intros Hcache Hkeys.
  assert (cmakeCacheEntries st = entries c) as Heq.
  { unfold cmakeCacheEntries, CMakeCache_allEntries. rewrite Hcache.
    rewrite reduce_set_well_keyed.
    - by rewrite (right_id ∅ (∪)), list_to_map_to_list.
    - intros k e Hin%elem_of_map_to_list. by apply Hkeys.
    - apply NoDup_fst_map_to_list. }
  split; [done|]. intros k. by rewrite Heq.
Qed.

(** ** Initialisation and the cache watcher *)

(** The steps of [doInit]. *)
Lemma doInit_run h :
  doInit h =
    let st1 := emit (EvSuspend (driver (machine h))) (emit (EvExists cachePath) (machine h)) in
    if pr_exists cachePath (disk (machine h)) then
      let '(st2, r) := _reloadPostConfigure st1 in
      let st3 := emit (EvSuspend (driver st2)) st2 in
      match r with
      | Returned _ =>
          onDidChange ReloadOnChange
            {| machine := st3; _cacheWatcher := _cacheWatcher h; rollbar := rollbar h |}
      | Thrown e =>
          ({| machine := st3; _cacheWatcher := _cacheWatcher h; rollbar := rollbar h |},
           Thrown e)
      end
    else
      onDidChange ReloadOnChange
        {| machine := st1; _cacheWatcher := _cacheWatcher h; rollbar := rollbar h |}.
Proof.
  unfold doInit, mbind, W_bind, on_machine, await, fs_exists. cbn.
  destruct (pr_exists cachePath (disk (machine h))); [|done]. cbn.
  by destruct (_reloadPostConfigure _) as [st2 [[]|e]].
Qed.

(** X13.  A new driver initialised over a binary directory without a cache
    file does not try to load one.  It needs a reconfigure, has no cache,
    no cache entries and no generator name, answers null to every
    compilation-info lookup, and has registered its one change
    listener. *)
Theorem doInit_without_cache_file (files : FS) :
  pr_exists cachePath files = false ->
  let '(h', r) := doInit (new_Host files) in
  r = Returned tt
  /\ needsReconfigure (machine h') = true
  /\ cmakeCache (machine h') = None
  /\ cmakeCacheEntries (machine h') = ∅
  /\ generatorName (machine h') = None
  /\ (forall filepath, snd (compilationInfoForFile filepath (machine h')) = Returned None)
  /\ listeners (_cacheWatcher h') = [ReloadOnChange]
  /\ disk (machine h') = files
  /\ forall p, EvLoadCache p ∉ trace (machine h').
Proof.
  intros Hnone. rewrite doInit_run. cbn. rewrite Hnone. cbn.
  split_and!; try done.
  intros p Hin. in_events Hin.
Qed.

(** X14.  When the cache file exists but does not load, [doInit] throws the
    load error before it registers the change listener: the watcher has
    the listeners of before, and the driver is as it was. *)
Theorem doInit_failed_load_registers_nothing h (e : Error) :
  pr_exists cachePath (disk (machine h)) = true ->
  cache_load cachePath (disk (machine h)) = Thrown e ->
  let '(h', r) := doInit h in
  r = Thrown e
  /\ listeners (_cacheWatcher h') = listeners (_cacheWatcher h)
  /\ driver (machine h') = driver (machine h).
Proof.
  intros Hexists Hload. rewrite doInit_run. cbn zeta. rewrite Hexists.
  by rewrite (reload_thrown _ e) by exact Hload.
Qed.

(** X15.  When the cache file exists and loads, [doInit] returns with that
    cache in the driver and the change listener registered after the
    listeners of before.  The flag is as it was: a driver initialised
    from an existing cache still needs a reconfigure. *)
Theorem doInit_with_cache_file_loads h (c : CMakeCache) :
  pr_exists cachePath (disk (machine h)) = true ->
  cache_load cachePath (disk (machine h)) = Returned c ->
  let '(h', r) := doInit h in
  r = Returned tt
  /\ cmakeCache (machine h') = Some c
  /\ needsReconfigure (machine h') = needsReconfigure (machine h)
  /\ listeners (_cacheWatcher h') = listeners (_cacheWatcher h) ++ [ReloadOnChange]
  /\ rollbar h' = rollbar h.
Proof.
  intros Hexists Hload. rewrite doInit_run. cbn zeta. rewrite Hexists.
  set (st1 := emit _ _).
  destruct (reload_returned st1 c Hload) as (st2 & -> & Hcache & _ & Hflag & _).
  cbn. by split_and!.
Qed.


(** ** Sequences of calls *)

Lemma reload_cache_kept_or_loaded st :
  driver (fst (_reloadPostConfigure st)) = driver st
  \/ exists c, _cmakeCache (driver (fst (_reloadPostConfigure st))) = Some c.
Proof.
  destruct (cache_load cachePath (disk st)) as [c|e] eqn:Hload.
  - destruct (reload_returned st c Hload) as (st' & -> & Hcache & _). right. by exists c.
  - rewrite (reload_thrown st e Hload). by left.
Qed.

Lemma reload_keeps_flag st :
  _needsReconfigure (driver (fst (_reloadPostConfigure st))) = _needsReconfigure (driver st).
Proof.
  destruct (reload_frame st) as (st' & r & evs & -> & _ & Hflag & _). exact Hflag.
Qed.

(** The flag and the cache after any configure. *)
Lemma doConfigure_driver_cases (args_ : loc) (oc : option OutputConsumer) st :
  let st' := fst (doConfigure args_ oc st) in
  (_needsReconfigure (driver st') = _needsReconfigure (driver st)
   \/ exists argv d' res,
        proc_execute cmakePath argv oc (disk st) = (d', Returned res)
        /\ retc res = Some 0)
  /\ (_cmakeCache (driver st') = _cmakeCache (driver st)
      \/ exists c, _cmakeCache (driver st') = Some c).
Proof.
  cbn zeta.
  destruct (heap st !! args_) as [argv|] eqn:Hargs.
  - rewrite (doConfigure_run _ _ _ _ Hargs).
    destruct (proc_execute _ _ _ _) as [d' [res|e]] eqn:Hexec; cbn zeta;
      [|split; by left].
    set (st1 := emit _ _).
    set (st2 := if retc_is_zero res then _ else _).
    unfold await.
    pose proof (reload_keeps_flag st2) as Hflag.
    pose proof (reload_cache_kept_or_loaded st2) as Hcache.
    destruct (_reloadPostConfigure st2) as [st3 [[]|e]]; cbn in Hflag, Hcache |- *.
    all: rewrite Hflag; split;
      [ subst st2; destruct (retc_is_zero res) eqn:Hz;
          [right; exists (argv ++ generated_args), d', res;
             split; [done|by apply retc_is_zero_true]
          |by left]
      | destruct Hcache as [-> | Hc]; [left|by right];
          subst st2; by destruct (retc_is_zero res) ].
  - unfold doConfigure, mbind, M_bind, Array_from. rewrite Hargs. cbn.
    split; by left.
Qed.

Lemma doSetKit_disk_callback_driver (need_clean : bool) cb st :
  let st' := fst (doSetKit need_clean (disk_callback cb) st) in
  _needsReconfigure (driver st') = true
  /\ _cmakeCache (driver st') = _cmakeCache (driver st).
Proof.
  cbn zeta. rewrite doSetKit_run. cbn zeta.
  unfold await, disk_callback.
  destruct need_clean.
  - destruct (pr_rmdir binaryDir (disk st)) as [d' [[]|e]]; cbn; [|done].
    by destruct (cb d').
  - cbn. by destruct (cb (disk st)).
Qed.

(** What one call can do to the flag and to the cache. *)
Lemma run_call_driver_cases (c : Call) h :
  (needsReconfigure (machine (run_call c h)) = true
   \/ needsReconfigure (machine (run_call c h)) = needsReconfigure (machine h)
   \/ exists argv oc d d' res,
        proc_execute cmakePath argv oc d = (d', Returned res) /\ retc res = Some 0)
  /\ (cmakeCache (machine (run_call c h)) = cmakeCache (machine h)
      \/ exists c', cmakeCache (machine (run_call c h)) = Some c').
Proof.
  unfold needsReconfigure, cmakeCache.
  destruct c as [need_clean cb|args_ oc| |filepath|]; cbn [run_call].
  - pose proof (doSetKit_disk_callback_driver need_clean cb (machine h)) as [Hflag Hcache].
    unfold on_machine. destruct (doSetKit _ _ _) as [st' r]. cbn in *.
    split; [by left|by left].
  - pose proof (doConfigure_driver_cases args_ oc (machine h)) as [Hflag Hcache].
    unfold on_machine. destruct (doConfigure _ _ _) as [st' r]. cbn in *.
    split; [|done].
    destruct Hflag as [Hflag|(argv & d' & res & Hexec & Hcode)]; [by right; left|].
    right; right. by exists argv, oc, (disk (machine h)), d', res.
  - pose proof (reload_keeps_flag (machine h)) as Hflag.
    pose proof (reload_cache_kept_or_loaded (machine h)) as Hcache.
    unfold on_machine, doPostBuild, mbind, M_bind, await.
    destruct (_reloadPostConfigure _) as [st' [[]|e]]; cbn in *.
    all: split; [by right; left|].
    all: destruct Hcache as [-> | Hc]; [by left|by right].
  - unfold on_machine, compilationInfoForFile, mbind, M_bind, await, get_driver, settle.
    destruct (_compilationDatabase (driver (machine h))) as [[db|]|e]; cbn;
      (split; [by right; left|by left]).
  - pose proof (reload_keeps_flag (machine h)) as Hflag.
    pose proof (reload_cache_kept_or_loaded (machine h)) as Hcache.
    unfold call_listener, rollbar_invokeAsync, on_machine.
    destruct (_reloadPostConfigure _) as [st' [[]|e]]; cbn in *.
    all: split; [by right; left|].
    all: destruct Hcache as [-> | Hc]; [by left|by right].
Qed.

(** X17.  [needsReconfigure] is cleared by nothing but a configure whose
    tool exits with code 0: with a tool that never does, a driver that
    needs a reconfigure still needs one after any sequence of kit changes,
    configures, post-build reloads, lookups and cache-file changes. *)
Theorem needsReconfigure_until_tool_succeeds (cs : list Call) h :
  (forall argv oc d d' res,
     proc_execute cmakePath argv oc d = (d', Returned res) -> retc res <> Some 0) ->
  needsReconfigure (machine h) = true ->
  needsReconfigure (machine (run_calls cs h)) = true.
Proof.
  intros Htool. unfold run_calls. revert h.
  induction cs as [|c cs IH]; intros h Hflag; [done|].
  cbn. apply IH.
  destruct (run_call_driver_cases c h)
    as [[Hc|[Hc|(argv & oc & d & d' & res & Hexec & Hcode)]] _].
  - done.
  - by rewrite Hc.
  - by destruct (Htool argv oc d d' res Hexec).
Qed.

(** X18.  A driver that holds a cache holds one ever after: no sequence of
    calls, failing or not, takes the driver back to having no cache. *)
Theorem cache_once_loaded_stays (cs : list Call) h :
  is_Some (cmakeCache (machine h)) ->
  is_Some (cmakeCache (machine (run_calls cs h))).
Proof.
  unfold run_calls. revert h.
  induction cs as [|c cs IH]; intros h Hcache; [done|].
  cbn. apply IH.
  destruct (run_call_driver_cases c h) as [_ [-> | [c' ->]]]; [done|by eexists].
Qed.

End MoreProofs.

(** * The further properties at concrete inputs *)

(** The cache file loads and the compile-commands file cannot be read: the
    reload returns, and the lookup that follows throws. *)
Lemma lookup_after_reload_witness :
  @cache_load unreadable_compdb (@cachePath unreadable_compdb) (disk reload_unreadable_compdb)
  = Returned {| entries :=
        {[ "CMAKE_PROJECT_NAME" :=
             {| key := "CMAKE_PROJECT_NAME"; type := STATIC; value := "Foo" |} ]} |}
  /\ snd (_reloadPostConfigure reload_unreadable_compdb) = Returned tt
  /\ snd (compilationInfoForFile "/src/a.c" (fst (_reloadPostConfigure reload_unreadable_compdb)))
     = Thrown "EACCES: permission denied".
Proof.
  split; [reflexivity|].
  pose proof (lookup_after_reload (C := unreadable_compdb) "/src/a.c"
                reload_unreadable_compdb _ eq_refl) as H.
  destruct (_reloadPostConfigure reload_unreadable_compdb) as [st' r].
  destruct H as [Hr Hlookup]. split; [exact Hr|exact Hlookup].
Defined.

(** The tool cannot be started: the configured driver keeps its cleared
    flag and its array. *)
Lemma doConfigure_process_rejection_witness :
  heap configure_cannot_start !! 0%nat = Some ["-G"; "Ninja"]
  /\ @proc_execute rejecting_tool (@cmakePath rejecting_tool)
       (["-G"; "Ninja"] ++ @generated_args rejecting_tool) None (disk configure_cannot_start)
     = ([("/build/CMakeCache.txt", "Foo")], Thrown "spawn cmake ENOENT")
  /\ snd (doConfigure 0%nat None configure_cannot_start) = Thrown "spawn cmake ENOENT"
  /\ driver (fst (doConfigure 0%nat None configure_cannot_start)) = configured_driver.
Proof.
  split; [reflexivity|]. split; [reflexivity|].
  pose proof (doConfigure_process_rejection (C := rejecting_tool) 0%nat None
                configure_cannot_start ["-G"; "Ninja"] _ _ eq_refl eq_refl) as H.
  destruct (doConfigure 0%nat None configure_cannot_start) as [st' r].
  destruct H as (Hr & Hdriver & _). split; [exact Hr|exact Hdriver].
Defined.

(** Two configures in a row with the same array: the second runs the tool
    with the same four arguments as the first. *)
Lemma doConfigure_twice_same_arguments_witness :
  heap first_configure !! 0%nat = Some ["-G"; "Ninja"]
  /\ exists a evs,
       trace (fst (doConfigure 0%nat None (fst (doConfigure 0%nat None first_configure))))
       = trace (fst (doConfigure 0%nat None first_configure))
         ++ EvExec "cmake" a ["-G"; "Ninja"; "-H/src"; "-B/build"] :: evs.
Proof.
  split; [reflexivity|].
  destruct (doConfigure_twice_same_arguments (C := working_tool) 0%nat None None
              first_configure ["-G"; "Ninja"] eq_refl)
    as (a & evs & Htrace & _).
  exists a, evs. exact Htrace.
Defined.

(** The first configure of a new driver: the project name is the one in
    the cache the tool wrote. *)
Lemma doConfigure_snapshots_witness :
  heap first_configure !! 0%nat = Some ["-G"; "Ninja"]
  /\ @proc_execute working_tool (@cmakePath working_tool)
       (["-G"; "Ninja"] ++ @generated_args working_tool) None (disk first_configure)
     = ([("/build/CMakeCache.txt", "Foo"); ("/build/compile_commands.json", "/src/a.c")],
        Returned {| retc := Some 0; stdout := ""; stderr := "" |})
  /\ @cache_load working_tool (@cachePath working_tool)
       [("/build/CMakeCache.txt", "Foo"); ("/build/compile_commands.json", "/src/a.c")]
     = Returned {| entries :=
          {[ "CMAKE_PROJECT_NAME" :=
               {| key := "CMAKE_PROJECT_NAME"; type := STATIC; value := "Foo" |} ]} |}
  /\ projectName (driver (fst (doConfigure 0%nat None first_configure))) = Some "Foo"
  /\ generatorName (fst (doConfigure 0%nat None first_configure)) = None.
Proof.
  split; [reflexivity|]. split; [reflexivity|]. split; [reflexivity|].
  destruct (doConfigure_snapshots (C := working_tool) 0%nat None first_configure
              ["-G"; "Ninja"] _ _ _ eq_refl eq_refl eq_refl)
    as (_ & Hname & Hgen & _).
  split; [exact Hname|exact Hgen].
Defined.

(** The generator entry of a two-entry cache is found under its key. *)
Lemma cmakeCacheEntries_keyed_by_entry_key_witness :
  cmakeCacheEntries with_two_entry_cache !! "CMAKE_GENERATOR"
  = Some {| key := "CMAKE_GENERATOR"; type := INTERNAL; value := "Ninja" |}
  /\ key {| key := "CMAKE_GENERATOR"; type := INTERNAL; value := "Ninja" |}
     = "CMAKE_GENERATOR".
Proof.
  split; [reflexivity|].
  exact (proj1 (cmakeCacheEntries_keyed_by_entry_key (C := working_tool)
                  with_two_entry_cache "CMAKE_GENERATOR" _ eq_refl)).
Defined.

Lemma two_entry_cache_well_keyed (k : string) (e : Entry) :
  entries two_entry_cache !! k = Some e -> key e = k.
Proof.
  unfold two_entry_cache. cbn [entries].
  rewrite lookup_insert. case_decide as Hgen; [by intros [= <-]|].
  rewrite lookup_singleton. case_decide as Hname; [by intros [= <-]|done].
Qed.

(** The entries of a two-entry cache are the mapping of the cache. *)
Lemma cmakeCacheEntries_agrees_with_cache_witness :
  cmakeCache with_two_entry_cache = Some two_entry_cache
  /\ (forall k e, entries two_entry_cache !! k = Some e -> key e = k)
  /\ cmakeCacheEntries with_two_entry_cache = entries two_entry_cache.
Proof.
  split; [reflexivity|]. split; [exact two_entry_cache_well_keyed|].
  exact (proj1 (cmakeCacheEntries_agrees_with_cache (C := working_tool)
                  with_two_entry_cache two_entry_cache eq_refl two_entry_cache_well_keyed)).
Defined.

(** A new driver over a binary directory that holds no cache file. *)
Lemma doInit_without_cache_file_witness :
  @pr_exists working_tool (@cachePath working_tool) [("/src/a.c", "int main;")] = false
  /\ snd (doInit host_without_cache) = Returned tt
  /\ needsReconfigure (machine (fst (doInit host_without_cache))) = true
  /\ listeners (_cacheWatcher (fst (doInit host_without_cache))) = [ReloadOnChange].
Proof.
  split; [reflexivity|].
  pose proof (doInit_without_cache_file (C := working_tool)
                [("/src/a.c", "int main;")] eq_refl) as H.
  fold host_without_cache in H.
  destruct (doInit host_without_cache) as [h' r].
  destruct H as (Hr & Hflag & _ & _ & _ & _ & Hlisteners & _).
  split; [exact Hr|]. split; [exact Hflag|exact Hlisteners].
Defined.

(** A new driver over a cache file that does not parse: no listener. *)
Lemma doInit_failed_load_registers_nothing_witness :
  @pr_exists working_tool (@cachePath working_tool) (disk (machine host_with_corrupt_cache))
  = true
  /\ @cache_load working_tool (@cachePath working_tool)
       (disk (machine host_with_corrupt_cache))
     = Thrown "cannot parse the cache"
  /\ snd (doInit host_with_corrupt_cache) = Thrown "cannot parse the cache"
  /\ listeners (_cacheWatcher (fst (doInit host_with_corrupt_cache))) = [].
Proof.
  split; [reflexivity|]. split; [reflexivity|].
  pose proof (doInit_failed_load_registers_nothing (C := working_tool)
                host_with_corrupt_cache _ eq_refl eq_refl) as H.
  destruct (doInit host_with_corrupt_cache) as [h' r].
  destruct H as (Hr & Hlisteners & _). split; [exact Hr|exact Hlisteners].
Defined.

(** A new driver over a good cache file: it is loaded, and the driver
    still needs a reconfigure. *)
Lemma doInit_with_cache_file_loads_witness :
  @pr_exists working_tool (@cachePath working_tool) (disk (machine host_with_cache)) = true
  /\ @cache_load working_tool (@cachePath working_tool) (disk (machine host_with_cache))
     = Returned {| entries :=
          {[ "CMAKE_PROJECT_NAME" :=
               {| key := "CMAKE_PROJECT_NAME"; type := STATIC; value := "Foo" |} ]} |}
  /\ snd (doInit host_with_cache) = Returned tt
  /\ needsReconfigure (machine (fst (doInit host_with_cache))) = true
  /\ listeners (_cacheWatcher (fst (doInit host_with_cache))) = [ReloadOnChange].
Proof.
  split; [reflexivity|]. split; [reflexivity|].
  pose proof (doInit_with_cache_file_loads (C := working_tool)
                host_with_cache _ eq_refl eq_refl) as H.
  destruct (doInit host_with_cache) as [h' r].
  destruct H as (Hr & _ & Hflag & Hlisteners & _).
  split; [exact Hr|]. split; [exact Hflag|exact Hlisteners].
Defined.

Lemma failing_tool_never_succeeds argv oc d d' res :
  @proc_execute failing_tool (@cmakePath failing_tool) argv oc d = (d', Returned res) ->
  retc res <> Some 0.
Proof. cbn. unfold mem_execute. by intros [= _ <-]. Qed.

(** A session with a tool that always fails leaves the flag set. *)
Lemma needsReconfigure_until_tool_succeeds_witness :
  (forall argv oc d d' res,
     @proc_execute failing_tool (@cmakePath failing_tool) argv oc d = (d', Returned res) ->
     retc res <> Some 0)
  /\ needsReconfigure (machine failing_host) = true
  /\ needsReconfigure (machine (run_calls failing_session failing_host)) = true.
Proof.
  split; [exact failing_tool_never_succeeds|]. split; [reflexivity|].
  exact (needsReconfigure_until_tool_succeeds (C := failing_tool) failing_session
           failing_host failing_tool_never_succeeds eq_refl).
Defined.

(** A session of a driver that holds a cache leaves it with one. *)
Lemma cache_once_loaded_stays_witness :
  is_Some (cmakeCache (machine working_host))
  /\ is_Some (cmakeCache (machine (run_calls working_session working_host))).
Proof.
  assert (is_Some (cmakeCache (machine working_host))) as Hcache by (by eexists).
  split; [exact Hcache|].
  exact (cache_once_loaded_stays (C := working_tool) working_session working_host Hcache).
Defined.
